(** * Price-Tracker-Bot: a shallow embedding of [price_tracker_bot.py]

    The bot keeps one SQLite table, [products].  A chat message that is not
    a command is taken as a product link and registered by [handle_link];
    an hourly job, [check_all_prices], looks every row up again and sends a
    Telegram message when the price went down.

    The embedding follows the script function by function.  Python code
    that talks to the outside world (HTTP, Telegram, SQLite, the clock) is
    written in a small state-and-exception monad: the state is the table
    plus the chronological trace of the calls that were made, and an
    exception leaves the state as it was at the [raise].  What the outside
    world answers is read from an environment, so that every theorem
    quantifies over all answers. *)

From Stdlib Require Import ZArith List String Ascii Bool Lia.
From Stdlib Require Import Floats.
Import ListNotations.

Local Open Scope string_scope.
Local Open Scope Z_scope.

(** ** Exceptions and results *)

(** A Python exception, reduced to the text that [%s] prints. *)
Inductive exn : Type :=
| PyException (what : string).

Definition str (e : exn) : string :=
  match e with PyException what => what end.

(** The [TypeError] of [current_price < last_price] when [last_price]
    is [None]. *)
Definition type_error : exn :=
  PyException "'<' not supported between instances of 'float' and 'NoneType'".

(** The [AttributeError] of [update.message.from_user] and of
    [update.message.reply_text] when [update.message] is [None]. *)
Definition attribute_error (attribute : string) : exn :=
  PyException (String.append "'NoneType' object has no attribute '"
                 (String.append attribute "'")).

Inductive result (A : Type) : Type :=
| Ok (a : A)
| Raise (e : exn).

Arguments Ok {A} a.
Arguments Raise {A} e.

(** ** The [products] table *)

(** One row, with the columns of the [CREATE TABLE] statement.  The
    [id] column is called [prod_id], as the job's loop variable is.  The
    prices the scraper returns are Python floats: IEEE 754 binary64,
    compared with [<].

    [last_price] is a [REAL] column: it holds [NULL] or a float that is
    not a NaN, because SQLite stores a NaN as [NULL].  [NULL] is written
    [nan] here, the one float the column cannot hold, and a [SELECT]
    hands it to Python as [None] ([is_null]). *)
Record product : Type := mkProduct {
  prod_id : Z;
  user_id : Z;
  product_url : string;
  product_name : string;
  last_price : float;
  last_checked : Z
}.

(** The column value is [NULL]; Python reads it as [None]. *)
Definition is_null (x : float) : bool := PrimFloat.is_nan x.

(** What a [REAL] column keeps of the float bound to it: a NaN becomes
    [NULL] (written [nan]), and a zero is stored as the integer 0, so
    that [-0.0] reads back as [0.0]; any other float reads back as it
    was. *)
Definition sqlite_real (x : float) : float :=
  if PrimFloat.is_zero x then 0%float else x.

(** The table: its rows in rowid order and the [sqlite_sequence] counter
    that [AUTOINCREMENT] maintains. *)
Record database : Type := mkDatabase {
  products : list product;
  sqlite_sequence : Z
}.

(** The table right after [init_db] created it. *)
Definition init_db : database :=
  {| products := []; sqlite_sequence := 0 |}.

(** ** Calls to the outside world *)

(** Every call that leaves the process, in the order it was made.  The
    boolean tells whether the call returned ([true]) or raised. *)
Inductive event : Type :=
| HttpGet (url : string)
| SendMessage (chat_id : Z) (text : string) (delivered : bool)
| ReplyText (text : string) (delivered : bool)
| SqlSelect (done : bool)
| SqlInsert (row : product) (committed : bool)
| SqlUpdate (id : Z) (price : float) (checked : Z) (committed : bool)
| LoggerError (message : string).

Record state : Type := mkState {
  db : database;
  trace : list event
}.

(** What the outside world answers.  The number is the step at which the
    call is made: the index of the row in the job's loop; in
    [handle_link], 0 for the first request or reply and 1 for the
    second. *)
Record env : Type := mkEnv {
  http : nat -> string -> result string;
  telegram : nat -> Z -> string -> result unit;
  reply : nat -> string -> result unit;
  sqlite_write : nat -> result unit;
  sqlite_read : result unit;
  clock : nat -> Z
}.

(** Library functions the script calls and that are pure: BeautifulSoup's
    [find] followed by [get_text] on the tag found (if any), [str.strip],
    the [float] constructor and the formatting of a float in an
    f-string. *)
Record pylib : Type := mkPylib {
  soup_find : string -> string -> string -> string -> result (option string);
  strip : string -> string;
  float_of_str : string -> result float;
  format_float : float -> string
}.

(** A chat message: the id of its [from_user] and its [text] (the
    handler is registered for text messages). *)
Record Message : Type := mkMessage {
  from_user_id : Z;
  message_text : string
}.

(** The update a handler receives.  [update.message] is [None] when the
    update is not a new message, as for an edited message or a channel
    post. *)
Record Update : Type := mkUpdate {
  message : option Message
}.

Definition with_message (m : Message) : Update := {| message := Some m |}.

(** ** The monad *)

Definition M (A : Type) : Type := state -> result A * state.

Definition ret {A : Type} (a : A) : M A :=
  fun st => (Ok a, st).

Definition bind {A B : Type} (m : M A) (k : A -> M B) : M B :=
  fun st =>
    match m st with
    | (Ok a, st') => k a st'
    | (Raise e, st') => (Raise e, st')
    end.

Definition try_except {A : Type} (body : M A) (handler : exn -> M A) : M A :=
  fun st =>
    match body st with
    | (Ok a, st') => (Ok a, st')
    | (Raise e, st') => handler e st'
    end.

Definition lift {A : Type} (r : result A) : M A :=
  fun st => (r, st).

Declare Scope py_scope.
Delimit Scope py_scope with py.
Notation "x <- c ;; k" := (bind c (fun x => k))
  (at level 61, c at next level, right associativity) : py_scope.
Notation "c ;; k" := (bind c (fun _ => k))
  (at level 61, right associativity) : py_scope.
Local Open Scope py_scope.

Definition emit (ev : event) : state -> state :=
  fun st => {| db := db st; trace := trace st ++ [ev] |}.

Definition succeeded {A : Type} (r : result A) : bool :=
  match r with Ok _ => true | Raise _ => false end.

Definition logger_error (message : string) : M unit :=
  fun st => (Ok tt, emit (LoggerError message) st).

(** [requests.get(url, ...)] followed by [response.text]. *)
Definition requests_get (get : string -> result string) (url : string) : M string :=
  fun st => (get url, emit (HttpGet url) st).

(** [context.bot.send_message(chat_id=..., text=...)]. *)
Definition send_message (E : env) (i : nat) (chat_id : Z) (text : string) : M unit :=
  fun st =>
    let r := telegram E i chat_id text in
    (r, emit (SendMessage chat_id text (succeeded r)) st).

(** [update.message.reply_text(...)]. *)
Definition reply_text (E : env) (i : nat) (text : string) : M unit :=
  fun st =>
    let r := reply E i text in
    (r, emit (ReplyText text (succeeded r)) st).

(** ** SQL statements *)

(** The largest rowid the table has ever held. *)
Definition largest_rowid (d : database) : Z :=
  fold_right Z.max (sqlite_sequence d) (map prod_id (products d)).

Definition insert_row (d : database) (row : product) : database :=
  {| products := products d ++ [row]; sqlite_sequence := prod_id row |}.

Definition set_price (price : float) (checked : Z) (id : Z) (p : product) : product :=
  if prod_id p =? id
  then {| prod_id := prod_id p; user_id := user_id p;
          product_url := product_url p; product_name := product_name p;
          last_price := price; last_checked := checked |}
  else p.

Definition update_rows (d : database) (price : float) (checked : Z) (id : Z) : database :=
  {| products := map (set_price price checked id) (products d);
     sqlite_sequence := sqlite_sequence d |}.

(** [get_db_connection()], [SELECT id, user_id, product_url, product_name,
    last_price FROM products] and [fetchall()]. *)
Definition sql_select (E : env) : M (list product) :=
  fun st =>
    match sqlite_read E with
    | Ok _ => (Ok (products (db st)), emit (SqlSelect true) st)
    | Raise e => (Raise e, emit (SqlSelect false) st)
    end.

(** [INSERT INTO products (user_id, product_url, product_name, last_price,
    last_checked) VALUES (?, ?, ?, ?, ?)] and [commit()], on a connection
    of its own.  Nothing is stored when the statement or the commit
    raises. *)
Definition sql_insert (E : env) (i : nat) (user : Z) (url name : string)
    (price : float) (checked : Z) : M unit :=
  fun st =>
    let row := {| prod_id := largest_rowid (db st) + 1; user_id := user;
                  product_url := url; product_name := name;
                  last_price := sqlite_real price; last_checked := checked |} in
    match sqlite_write E i with
    | Ok _ => (Ok tt, {| db := insert_row (db st) row;
                         trace := trace st ++ [SqlInsert row true] |})
    | Raise e => (Raise e, emit (SqlInsert row false) st)
    end.

(** [UPDATE products SET last_price = ?, last_checked = ? WHERE id = ?]
    and [commit()]. *)
Definition sql_update (E : env) (i : nat) (price : float) (checked : Z) (id : Z) : M unit :=
  fun st =>
    match sqlite_write E i with
    | Ok _ => (Ok tt, {| db := update_rows (db st) (sqlite_real price) checked id;
                         trace := trace st ++ [SqlUpdate id price checked true] |})
    | Raise e => (Raise e, emit (SqlUpdate id price checked false) st)
    end.

(** ** Strings *)

Definition quote : string := String (ascii_of_nat 34) EmptyString.
Definition newline : string := String (ascii_of_nat 10) EmptyString.

Definition nonempty (s : string) : bool :=
  match s with EmptyString => false | String _ _ => true end.

Fixpoint replace_from (old new : string) (skip : nat) (s : string) : string :=
  match s with
  | EmptyString => EmptyString
  | String c s' =>
      match skip with
      | S k => replace_from old new k s'
      | O =>
          if String.prefix old s
          then new ++ replace_from old new (Nat.pred (String.length old)) s'
          else String c (replace_from old new O s')
      end
  end.

Fixpoint intersperse (new s : string) : string :=
  match s with
  | EmptyString => EmptyString
  | String c s' => String c (new ++ intersperse new s')
  end.

(** [s.replace(old, new)]: every occurrence, left to right, without
    overlap; an empty [old] matches between any two characters. *)
Definition replace (s old new : string) : string :=
  match old with
  | EmptyString => new ++ intersperse new s
  | String _ _ => replace_from old new O s
  end.

(** ** The scraper *)

Section Scraper.

Variable L : pylib.

Definition get_product_name (get : string -> result string) (url : string)
    : M (option string) :=
  try_except
    (response <- requests_get get url ;;
     title_tag <- lift (soup_find L response "span" "id" "productTitle") ;;
     match title_tag with
     | Some text => ret (Some (strip L text))
     | None =>
         logger_error "Product title not found on the page." ;;
         ret None
     end)
    (fun e =>
       logger_error ("Error fetching product name: " ++ str e) ;;
       ret None).

Definition check_price (get : string -> result string) (url : string)
    : M (option float) :=
  try_except
    (response <- requests_get get url ;;
     price_tag <- lift (soup_find L response "span" "class" "a-offscreen") ;;
     match price_tag with
     | Some text =>
         let price_text := strip L text in
         let price_text := replace (replace price_text "₹" EmptyString) "," EmptyString in
         price <- lift (float_of_str L price_text) ;;
         ret (Some price)
     | None =>
         logger_error "Price tag not found on the page." ;;
         ret None
     end)
    (fun e =>
       logger_error ("Error fetching price: " ++ str e) ;;
       ret None).

End Scraper.

(** ** The registrar and the hourly job *)

Section Bot.

Variable L : pylib.

Definition added_message (name : string) (price : float) : string :=
  "✅ Added " ++ quote ++ name ++ quote ++ " to your tracking list at price ₹"
    ++ format_float L price ++ "!".

Definition insert_error_message : string :=
  "❌ There was an error adding your product. Please try again.".

Definition price_failure_message : string :=
  "❌ Failed to fetch the product price. Please try again later.".

Definition parse_failure_message : string :=
  "❌ Failed to parse the product. Check the link and try again.".

Definition drop_message (name : string) (old_price new_price : float) (url : string)
    : string :=
  "🚨 Price dropped for " ++ quote ++ name ++ quote ++ "!" ++ newline
    ++ "Old Price: ₹" ++ format_float L old_price ++ newline
    ++ "New Price: ₹" ++ format_float L new_price ++ newline
    ++ url.

(** [handle_link(update, context)].  The first two lines read
    [update.message.from_user.id] and [update.message.text] outside any
    [try].  [if product_name:] is false for [None] and for the empty
    string. *)
Definition handle_link (E : env) (update : Update) : M unit :=
  match message update with
  | None => lift (Raise (attribute_error "from_user"))
  | Some m =>
      let user := from_user_id m in
      let url := strip L (message_text m) in
      name_found <- get_product_name L (http E 0) url ;;
      match name_found with
      | Some name =>
          if nonempty name then
            current_price <- check_price L (http E 1) url ;;
            match current_price with
            | Some price =>
                try_except
                  (sql_insert E 0 user url name price (clock E 0) ;;
                   reply_text E 0 (added_message name price))
                  (fun e =>
                     logger_error
                       ("Error inserting product into database: " ++ str e) ;;
                     reply_text E 1 insert_error_message)
            | None => reply_text E 0 price_failure_message
            end
          else reply_text E 0 parse_failure_message
      | None => reply_text E 0 parse_failure_message
      end
  end.

(** The body of the loop of [check_all_prices], for the row fetched at
    position [i].  In [current_price is not None and current_price <
    last_price] the comparison is made only when a price came back, and
    it raises when the row's [last_price] is [None]. *)
Definition check_one (E : env) (i : nat) (p : product) : M unit :=
  current_price <- check_price L (http E i) (product_url p) ;;
  match current_price with
  | Some price =>
      if is_null (last_price p) then lift (Raise type_error)
      else if PrimFloat.ltb price (last_price p) then
        send_message E i (user_id p)
          (drop_message (product_name p) (last_price p) price (product_url p)) ;;
        sql_update E i price (clock E i) (prod_id p)
      else ret tt
  | None => ret tt
  end.

(** [for product in products:], from position [i] on. *)
Fixpoint for_each (E : env) (i : nat) (rows : list product) : M unit :=
  match rows with
  | [] => ret tt
  | p :: rest => check_one E i p ;; for_each E (S i) rest
  end.

(** [check_all_prices(context)]: one [try] around the query and the whole
    loop. *)
Definition check_all_prices (E : env) : M unit :=
  try_except
    (rows <- sql_select E ;;
     for_each E 0 rows)
    (fun e => logger_error ("Error in check_all_prices: " ++ str e)).

End Bot.

(** ** Reading a trace *)

(** The messages Telegram accepted from [send_message], oldest first. *)
Fixpoint notifications (t : list event) : list (Z * string) :=
  match t with
  | [] => []
  | SendMessage chat_id text true :: t' => (chat_id, text) :: notifications t'
  | _ :: t' => notifications t'
  end.

(** The texts handed to [reply_text], delivered or not. *)
Fixpoint replies (t : list event) : list string :=
  match t with
  | [] => []
  | ReplyText text _ :: t' => text :: replies t'
  | _ :: t' => replies t'
  end.

(** The links requested over HTTP. *)
Fixpoint requests (t : list event) : list string :=
  match t with
  | [] => []
  | HttpGet url :: t' => url :: requests t'
  | _ :: t' => requests t'
  end.

(** The rows an [INSERT] was issued for. *)
Fixpoint inserts (t : list event) : list product :=
  match t with
  | [] => []
  | SqlInsert row _ :: t' => row :: inserts t'
  | _ :: t' => inserts t'
  end.

(** [contains s part]: [part] occurs in [s]. *)
Definition contains (s part : string) : Prop :=
  exists before after : string, s = (before ++ part ++ after)%string.

(** The value a monadic call returns from state [st], and the state it
    leaves. *)
Definition value_of {A : Type} (m : M A) (st : state) : result A := fst (m st).
Definition state_after {A : Type} (m : M A) (st : state) : state := snd (m st).

Definition blank : state := {| db := init_db; trace := [] |}.

(** What the lookups answer for a link when asked through [get]. *)
Definition name_value (L : pylib) (get : string -> result string) (url : string)
    : option string :=
  match value_of (get_product_name L get url) blank with
  | Ok found => found
  | Raise _ => None
  end.

(** The name as [handle_link] tests it: [None] and the empty string both
    count as no name. *)
Definition name_seen (L : pylib) (get : string -> result string) (url : string)
    : option string :=
  match name_value L get url with
  | Some name => if nonempty name then Some name else None
  | None => None
  end.

Definition price_seen (L : pylib) (get : string -> result string) (url : string)
    : option float :=
  match value_of (check_price L get url) blank with
  | Ok found => found
  | Raise _ => None
  end.

(** What a lookup adds to the trace: the request, then at most one log
    line. *)
Definition name_trace (L : pylib) (get : string -> result string) (url : string)
    : list event :=
  trace (state_after (get_product_name L get url) blank).

Definition price_trace (L : pylib) (get : string -> result string) (url : string)
    : list event :=
  trace (state_after (check_price L get url) blank).

(** The primary key: no two rows share an [id]. *)
Definition primary_key (d : database) : Prop :=
  NoDup (map prod_id (products d)).

Definition row_with_id (d : database) (id : Z) : option product :=
  find (fun p => prod_id p =? id) (products d).

(** ** What one pass of the job does to a row *)

(** The price the job reacts to for the row fetched at position [i]: the
    one [check_price] returns, when it is below the row's [last_price]. *)
Definition drop_seen (L : pylib) (E : env) (i : nat) (p : product) : option float :=
  match price_seen L (http E i) (product_url p) with
  | Some price => if PrimFloat.ltb price (last_price p) then Some price else None
  | None => None
  end.

(** The comparison of the iteration raises: a price came back and the
    row's [last_price] is [NULL]. *)
Definition null_compared (L : pylib) (E : env) (i : nat) (p : product) : bool :=
  match price_seen L (http E i) (product_url p) with
  | Some _ => is_null (last_price p)
  | None => false
  end.

(** The row as its iteration leaves it when the iteration completes. *)
Definition after_check (L : pylib) (E : env) (i : nat) (p : product) : product :=
  match drop_seen L E i p with
  | Some price => set_price (sqlite_real price) (clock E i) (prod_id p) p
  | None => p
  end.

Fixpoint checked_rows (L : pylib) (E : env) (i : nat) (rows : list product)
    : list product :=
  match rows with
  | [] => []
  | p :: rest => after_check L E i p :: checked_rows L E (S i) rest
  end.

(** [settled L E i rows rows']: row by row, from position [i] on, [rows']
    holds either the row of [rows] untouched or that row as its iteration
    leaves it. *)
Inductive settled (L : pylib) (E : env) : nat -> list product -> list product -> Prop :=
| settled_nil : forall i, settled L E i [] []
| settled_cons : forall i p p' rows rows',
    p' = p \/ p' = after_check L E i p ->
    settled L E (S i) rows rows' ->
    settled L E i (p :: rows) (p' :: rows').

(** The job reaches the row that follows [before] in state [st1]: the
    query returned and no iteration over [before] raised. *)
Definition reaches (L : pylib) (E : env) (st : state) (before : list product)
    (st1 : state) : Prop :=
  sqlite_read E = Ok tt
  /\ for_each L E 0 before (emit (SqlSelect true) st) = (Ok tt, st1).

(** The row [handle_link] inserts into table [d] for message [m]. *)
Definition new_row (L : pylib) (E : env) (m : Message) (d : database)
    (name : string) (price : float) : product :=
  {| prod_id := largest_rowid d + 1;
     user_id := from_user_id m;
     product_url := strip L (message_text m);
     product_name := name;
     last_price := sqlite_real price;
     last_checked := clock E 0 |}.

(** A run of the job from [st] raises nothing: the query returns and
    every iteration completes. *)
Definition completes (L : pylib) (E : env) (st : state) : Prop :=
  value_of (bind (sql_select E) (fun rows => for_each L E 0 rows)) st = Ok tt.

(** ** A small world to run the bot in *)

Module Sample.

(** A toy page: the title, a semicolon, the price text. *)
Fixpoint before_semicolon (s : string) : string :=
  match s with
  | EmptyString => EmptyString
  | String c s' =>
      if Ascii.eqb c ";"%char then EmptyString else String c (before_semicolon s')
  end.

Fixpoint after_semicolon (s : string) : string :=
  match s with
  | EmptyString => EmptyString
  | String c s' => if Ascii.eqb c ";"%char then s' else after_semicolon s'
  end.

Definition find_span (html tag attr value : string) : result (option string) :=
  let text := if String.eqb attr "id" then before_semicolon html
              else after_semicolon html in
  Ok (if nonempty text then Some text else None).

Fixpoint lstrip (s : string) : string :=
  match s with
  | String c s' => if Ascii.eqb c " "%char then lstrip s' else s
  | EmptyString => EmptyString
  end.

Fixpoint rstrip (s : string) : string :=
  match s with
  | EmptyString => EmptyString
  | String c s' =>
      let r := rstrip s' in
      if Ascii.eqb c " "%char && negb (nonempty r) then EmptyString else String c r
  end.

Definition to_float (s : string) : result float :=
  if String.eqb s "nan" then Ok PrimFloat.nan
  else if String.eqb s "100.0" then Ok 100%float
  else if String.eqb s "90.0" then Ok 90%float
  else if String.eqb s "95.0" then Ok 95%float
  else if String.eqb s "80.0" then Ok 80%float
  else if String.eqb s "1299.00" then Ok 1299%float
  else Raise (PyException "could not convert string to float").

Definition show_float (x : float) : string :=
  if PrimFloat.eqb x 100 then "100.0"
  else if PrimFloat.eqb x 90 then "90.0"
  else if PrimFloat.eqb x 95 then "95.0"
  else if PrimFloat.eqb x 80 then "80.0"
  else if PrimFloat.eqb x 1299 then "1299.0"
  else "nan".

Definition lib : pylib :=
  {| soup_find := find_span;
     strip := fun s => rstrip (lstrip s);
     float_of_str := to_float;
     format_float := show_float |}.

Definition serves (page : string) : nat -> string -> result string :=
  fun _ _ => Ok page.

Definition timed_out : nat -> string -> result string :=
  fun _ _ => Raise (PyException "Read timed out.").

Definition blocked : exn := PyException "Forbidden: bot was blocked by the user".
Definition disk_full : exn := PyException "database or disk is full".

(** Everything works, and every link shows [page]. *)
Definition online (page : string) : env :=
  {| http := serves page;
     telegram := fun _ _ _ => Ok tt;
     reply := fun _ _ => Ok tt;
     sqlite_write := fun _ => Ok tt;
     sqlite_read := Ok tt;
     clock := fun i => 1700000000 + Z.of_nat i |}.

(** SQLite refuses every write. *)
Definition read_only (page : string) : env :=
  {| http := serves page;
     telegram := fun _ _ _ => Ok tt;
     reply := fun _ _ => Ok tt;
     sqlite_write := fun _ => Raise disk_full;
     sqlite_read := Ok tt;
     clock := fun i => 1700000000 + Z.of_nat i |}.

(** No page can be fetched. *)
Definition offline : env :=
  {| http := timed_out;
     telegram := fun _ _ _ => Ok tt;
     reply := fun _ _ => Ok tt;
     sqlite_write := fun _ => Ok tt;
     sqlite_read := Ok tt;
     clock := fun i => 1700000000 + Z.of_nat i |}.

(** One user has blocked the bot; Telegram takes messages for everyone
    else. *)
Definition blocked_by (user : Z) (page : string) : env :=
  {| http := serves page;
     telegram := fun _ chat_id _ => if chat_id =? user then Raise blocked else Ok tt;
     reply := fun _ _ => Ok tt;
     sqlite_write := fun _ => Ok tt;
     sqlite_read := Ok tt;
     clock := fun i => 1700000000 + Z.of_nat i |}.

(** The first request is answered with [page], the later ones time
    out. *)
Definition flaky (page : string) : env :=
  {| http := fun i url => match i with O => Ok page | S _ => timed_out i url end;
     telegram := fun _ _ _ => Ok tt;
     reply := fun _ _ => Ok tt;
     sqlite_write := fun _ => Ok tt;
     sqlite_read := Ok tt;
     clock := fun i => 1700000000 + Z.of_nat i |}.

Definition cheaper : string := "Widget;₹90.0".
Definition unchanged : string := "Widget;₹100.0".
Definition untitled : string := ";₹90.0".
Definition unpriced : string := "Widget;".
Definition garbled : string := "Widget;call us".

Definition widget : product :=
  {| prod_id := 1; user_id := 42; product_url := "https://www.amazon.in/dp/B01";
     product_name := "Widget"; last_price := 100; last_checked := 1699990000 |}.

Definition gadget : product :=
  {| prod_id := 2; user_id := 43; product_url := "https://www.amazon.in/dp/B02";
     product_name := "Gadget"; last_price := 100; last_checked := 1699990000 |}.

Definition one_row : state :=
  {| db := {| products := [widget]; sqlite_sequence := 1 |}; trace := [] |}.

Definition two_rows : state :=
  {| db := {| products := [widget; gadget]; sqlite_sequence := 2 |}; trace := [] |}.

Definition link : Message :=
  {| from_user_id := 42; message_text := " https://www.amazon.in/dp/B01 " |}.

(** The state in which a run over [two_rows], with everything working
    and both pages showing the lower price, reaches the second row. *)
Definition second_reached : state :=
  state_after (for_each lib (online cheaper) 0 [widget])
    (emit (SqlSelect true) two_rows).

End Sample.

(** ** The command handlers and the table on disk *)

(** [CREATE TABLE IF NOT EXISTS products (...)], the statement [init_db]
    runs, on a database file that may or may not hold the table yet. *)
Definition create_table_if_not_exists (file : option database) : database :=
  match file with
  | Some table => table
  | None => init_db
  end.

Definition start_message : string :=
  "👋 Welcome! I am the Price Tracker Bot developed by Vyankatesh." ++ newline
    ++ "Send me an Amazon product link, and I’ll track its price for you.".

Definition help_message : string :=
  "ℹ️ To use this bot:" ++ newline
    ++ "1. Send an Amazon product link to track its price." ++ newline
    ++ "2. Use /about to learn more about this bot." ++ newline
    ++ "I’ll alert you when the price drops!".

Definition about_message : string :=
  "Price Tracker Bot" ++ newline
    ++ "Developed by Vyankatesh." ++ newline
    ++ "This bot tracks the prices of Amazon products and notifies you when the price drops."
    ++ newline
    ++ "Simply send an Amazon product link to get started!".

(** [start(update, context)]. *)
Definition start (E : env) (update : Update) : M unit :=
  match message update with
  | Some _ => reply_text E 0 start_message
  | None => lift (Raise (attribute_error "reply_text"))
  end.

(** [help_command(update, context)]. *)
Definition help_command (E : env) (update : Update) : M unit :=
  match message update with
  | Some _ => reply_text E 0 help_message
  | None => lift (Raise (attribute_error "reply_text"))
  end.

(** [about(update, context)]. *)
Definition about (E : env) (update : Update) : M unit :=
  match message update with
  | Some _ => reply_text E 0 about_message
  | None => lift (Raise (attribute_error "reply_text"))
  end.

(** One activation of the bot: a handler called with an update, or the
    hourly job. *)
Inductive call : Type :=
| Start (update : Update)
| Help (update : Update)
| About (update : Update)
| Link (update : Update)
| Job.

Definition run_call (L : pylib) (c : call) (E : env) : M unit :=
  match c with
  | Start update => start E update
  | Help update => help_command E update
  | About update => about E update
  | Link update => handle_link L E update
  | Job => check_all_prices L E
  end.

(** Calls made one after another, each in the world it finds and from
    the state the previous one left, whether that one returned or
    raised. *)
Fixpoint run_calls (L : pylib) (calls : list (call * env)) (st : state) : state :=
  match calls with
  | [] => st
  | (c, E) :: rest => run_calls L rest (state_after (run_call L c E) st)
  end.

(** ** More readings of a trace and of the table *)

(** The [UPDATE]s that were committed: [id], price and time. *)
Fixpoint updates (t : list event) : list (Z * float * Z) :=
  match t with
  | [] => []
  | SqlUpdate id price checked true :: t' => (id, price, checked) :: updates t'
  | _ :: t' => updates t'
  end.

(** The lines written with [logger.error]. *)
Fixpoint logged (t : list event) : list string :=
  match t with
  | [] => []
  | LoggerError message :: t' => message :: logged t'
  | _ :: t' => logged t'
  end.

(** The notification the job sends for row [p] when it sees [price]. *)
Definition alert (L : pylib) (p : product) (price : float) : Z * string :=
  (user_id p,
   drop_message L (product_name p) (last_price p) price (product_url p)).

(** [n] is the notification of a row of [rows] for which the job, at the
    row's position counted from [i], sees a price below the stored
    one. *)
Definition alert_among (L : pylib) (E : env) (i : nat) (rows : list product)
    (n : Z * string) : Prop :=
  exists k p price,
    nth_error rows k = Some p
    /\ drop_seen L E (i + k) p = Some price
    /\ n = alert L p price.

(** Price [a] is [b] or strictly below it. *)
Definition lowered (a b : float) : Prop :=
  a = b \/ PrimFloat.ltb a b = true.

(** Row [p'] is row [p] with, at most, a lower price and another time of
    check. *)
Definition same_item (p p' : product) : Prop :=
  prod_id p' = prod_id p
  /\ user_id p' = user_id p
  /\ product_url p' = product_url p
  /\ product_name p' = product_name p
  /\ lowered (last_price p') (last_price p).

(** Every row of [d] is still in [d'], at its place. *)
Definition rows_kept (d d' : database) : Prop :=
  forall k p,
    nth_error (products d) k = Some p ->
    exists p', nth_error (products d') k = Some p' /\ same_item p p'.

(** The characters of [s] other than [c]. *)
Fixpoint without_char (c : ascii) (s : string) : string :=
  match s with
  | EmptyString => EmptyString
  | String a s' =>
      if Ascii.eqb a c then without_char c s' else String a (without_char c s')
  end.

Fixpoint occurs (c : ascii) (s : string) : bool :=
  match s with
  | EmptyString => false
  | String a s' => Ascii.eqb a c || occurs c s'
  end.

(** ** More worlds *)

Module More.

Definition flood_wait : exn := PyException "Flood control exceeded".
Definition locked : exn := PyException "database is locked".

(** Telegram takes no reply. *)
Definition replies_down (page : string) : env :=
  {| http := Sample.serves page;
     telegram := fun _ _ _ => Ok tt;
     reply := fun _ _ => Raise flood_wait;
     sqlite_write := fun _ => Ok tt;
     sqlite_read := Ok tt;
     clock := fun i => 1700000000 + Z.of_nat i |}.

(** The database cannot be read. *)
Definition unreadable (page : string) : env :=
  {| http := Sample.serves page;
     telegram := fun _ _ _ => Ok tt;
     reply := fun _ _ => Ok tt;
     sqlite_write := fun _ => Ok tt;
     sqlite_read := Raise locked;
     clock := fun i => 1700000000 + Z.of_nat i |}.

(** A link is registered, the job runs twice, and a command arrives. *)
(** An update without a message, as for an edited message. *)
Definition edited : Update := {| message := None |}.

(** A page whose price text reads as a NaN. *)
Definition not_a_number : string := "Widget;₹nan".

(** A row registered from such a page: its price is [NULL]. *)
Definition priceless : product :=
  {| prod_id := 1; user_id := 42; product_url := "https://www.amazon.in/dp/B01";
     product_name := "Widget"; last_price := PrimFloat.nan;
     last_checked := 1699990000 |}.

Definition null_first : state :=
  {| db := {| products := [priceless; Sample.gadget]; sqlite_sequence := 2 |};
     trace := [] |}.

Definition session : list (call * env) :=
  [(Link (with_message Sample.link), Sample.online Sample.unchanged);
   (Job, Sample.online Sample.cheaper);
   (Start (with_message Sample.link), Sample.offline);
   (Link edited, Sample.online Sample.cheaper);
   (Job, Sample.blocked_by 42 "Widget;₹80.0")].

End More.

(** * Properties *)

Local Open Scope list_scope.

(** ** Floats *)

Lemma SFcompare_antisym (x y : spec_float) :
  SFcompare y x = option_map CompOpp (SFcompare x y).
Proof.
  destruct x as [s1|s1| |s1 m1 e1], y as [s2|s2| |s2 m2 e2]; simpl;
    try reflexivity;
    try (destruct s1; reflexivity);
    try (destruct s2; reflexivity);
    try (destruct s1, s2; reflexivity).
  destruct s1, s2; simpl; try reflexivity;
    rewrite (Z.compare_antisym e1 e2);
    destruct (Z.compare e1 e2); simpl; try reflexivity;
    fold (Pos.compare m1 m2); fold (Pos.compare m2 m1);
    rewrite (Pos.compare_antisym m1 m2);
    destruct (Pos.compare m1 m2); reflexivity.
Qed.

Lemma ltb_irrefl (x : float) : PrimFloat.ltb x x = false.
Proof.
  rewrite ltb_spec. unfold SFltb.
  pose proof (SFcompare_antisym (Prim2SF x) (Prim2SF x)) as H.
  destruct (SFcompare (Prim2SF x) (Prim2SF x)) as [[ | | ]|];
    simpl in H; try reflexivity; discriminate H.
Qed.

Lemma leb_not_ltb (x y : float) :
  PrimFloat.leb y x = true -> PrimFloat.ltb x y = false.
Proof.
  rewrite leb_spec, ltb_spec. unfold SFleb, SFltb.
  rewrite (SFcompare_antisym (Prim2SF x) (Prim2SF y)).
  destruct (SFcompare (Prim2SF x) (Prim2SF y)) as [[ | | ]|];
    simpl; intros H; try reflexivity; discriminate H.
Qed.

Lemma SFcompare_right_eq (x y : spec_float) (c : comparison) :
  SFcompare x y = Some c -> SFcompare y y = Some Eq.
Proof.
  destruct x as [sx|sx| |sx mx ex], y as [sy|sy| |sy my ey]; simpl;
    try discriminate; intros _;
    repeat match goal with b : bool |- _ => destruct b end;
    try reflexivity;
    rewrite Z.compare_refl; fold (Pos.compare my my);
    rewrite Pos.compare_refl; reflexivity.
Qed.

Lemma compared_not_null (x y : spec_float) (c : comparison) :
  SFcompare x y = Some c -> SFeqb y y = true /\ SFeqb x x = true.
Proof.
  intros H. unfold SFeqb. split.
  - rewrite (SFcompare_right_eq x y c H). reflexivity.
  - pose proof (SFcompare_antisym x y) as Ha. rewrite H in Ha. simpl in Ha.
    rewrite (SFcompare_right_eq y x (CompOpp c) Ha). reflexivity.
Qed.

Lemma ltb_not_null (x y : float) :
  PrimFloat.ltb x y = true -> is_null x = false /\ is_null y = false.
Proof.
  unfold is_null, PrimFloat.is_nan. rewrite ltb_spec, !eqb_spec. unfold SFltb.
  destruct (SFcompare (Prim2SF x) (Prim2SF y)) as [c|] eqn:Hc; [|discriminate].
  intros _. destruct (compared_not_null _ _ c Hc) as [-> ->]. auto.
Qed.

Lemma leb_not_null (x y : float) :
  PrimFloat.leb x y = true -> is_null x = false /\ is_null y = false.
Proof.
  unfold is_null, PrimFloat.is_nan. rewrite leb_spec, !eqb_spec. unfold SFleb.
  destruct (SFcompare (Prim2SF x) (Prim2SF y)) as [c|] eqn:Hc; [|discriminate].
  intros _. destruct (compared_not_null _ _ c Hc) as [-> ->]. auto.
Qed.

Lemma is_zero_spec (x : float) :
  PrimFloat.is_zero x = true -> exists s, Prim2SF x = S754_zero s.
Proof.
  unfold PrimFloat.is_zero. rewrite eqb_spec.
  replace (Prim2SF PrimFloat.zero) with (S754_zero false) by reflexivity.
  unfold SFeqb.
  destruct (Prim2SF x) as [s|s| |s m e]; simpl; try discriminate.
  - intros _. exists s. reflexivity.
  - destruct s; discriminate.
  - destruct s; discriminate.
Qed.

Lemma SFcompare_zero_l (s : bool) (y : spec_float) :
  SFcompare (S754_zero s) y = SFcompare (S754_zero false) y.
Proof. destruct y; reflexivity. Qed.

Lemma SFcompare_zero_r (s : bool) (y : spec_float) :
  SFcompare y (S754_zero s) = SFcompare y (S754_zero false).
Proof. destruct y; reflexivity. Qed.

Lemma sqlite_real_spec (x : float) :
  sqlite_real x = x
  \/ (exists s, Prim2SF x = S754_zero s)
     /\ Prim2SF (sqlite_real x) = S754_zero false.
Proof.
  unfold sqlite_real. destruct (PrimFloat.is_zero x) eqn:Hz; [|left; reflexivity].
  right. split; [apply (is_zero_spec x Hz)|reflexivity].
Qed.

(** A stored zero compares as the zero that was bound. *)
Lemma sqlite_real_ltb_l (x y : float) :
  PrimFloat.ltb (sqlite_real x) y = PrimFloat.ltb x y.
Proof.
  destruct (sqlite_real_spec x) as [->|[[s Hs] Hz]]; [reflexivity|].
  rewrite !ltb_spec, Hz, Hs. unfold SFltb.
  rewrite (SFcompare_zero_l s). reflexivity.
Qed.

Lemma sqlite_real_ltb_r (x y : float) :
  PrimFloat.ltb y (sqlite_real x) = PrimFloat.ltb y x.
Proof.
  destruct (sqlite_real_spec x) as [->|[[s Hs] Hz]]; [reflexivity|].
  rewrite !ltb_spec, Hz, Hs. unfold SFltb.
  rewrite (SFcompare_zero_r s). reflexivity.
Qed.

Lemma sqlite_real_null (x : float) : is_null (sqlite_real x) = is_null x.
Proof.
  destruct (sqlite_real_spec x) as [->|[[s Hs] Hz]]; [reflexivity|].
  unfold is_null, PrimFloat.is_nan. rewrite !eqb_spec, Hz, Hs. reflexivity.
Qed.

(** ** Traces *)

Lemma notifications_app (a b : list event) :
  notifications (a ++ b) = notifications a ++ notifications b.
Proof.
  induction a as [|ev a IH]; simpl; [reflexivity|].
  destruct ev as [ | ? ? [|] | | | | | ]; simpl; rewrite IH; reflexivity.
Qed.

Lemma replies_app (a b : list event) :
  replies (a ++ b) = replies a ++ replies b.
Proof.
  induction a as [|ev a IH]; simpl; [reflexivity|].
  destruct ev; simpl; rewrite IH; reflexivity.
Qed.

Lemma requests_app (a b : list event) :
  requests (a ++ b) = requests a ++ requests b.
Proof.
  induction a as [|ev a IH]; simpl; [reflexivity|].
  destruct ev; simpl; rewrite IH; reflexivity.
Qed.

Lemma inserts_app (a b : list event) :
  inserts (a ++ b) = inserts a ++ inserts b.
Proof.
  induction a as [|ev a IH]; simpl; [reflexivity|].
  destruct ev; simpl; rewrite IH; reflexivity.
Qed.

(** Push a projection of the trace through appended pieces. *)
Ltac read_trace :=
  repeat (rewrite ?notifications_app, ?replies_app, ?requests_app, ?inserts_app;
          simpl).

(** ** The scraper never raises *)

Section ScraperFacts.

Variable L : pylib.

Lemma get_product_name_run get url st :
  get_product_name L get url st =
  (Ok (name_value L get url),
   {| db := db st; trace := trace st ++ name_trace L get url |}).
Proof.
  unfold name_value, name_trace, value_of, state_after, get_product_name,
    try_except, bind, requests_get, lift, logger_error, ret, emit.
  simpl.
  destruct (get url) as [response|e]; simpl.
  - destruct (soup_find L response "span" "id" "productTitle") as [[text|]|e];
      simpl; rewrite <- ?app_assoc; reflexivity.
  - rewrite <- ?app_assoc; reflexivity.
Qed.

Lemma check_price_run get url st :
  check_price L get url st =
  (Ok (price_seen L get url),
   {| db := db st; trace := trace st ++ price_trace L get url |}).
Proof.
  unfold price_seen, price_trace, value_of, state_after, check_price,
    try_except, bind, requests_get, lift, logger_error, ret, emit.
  simpl.
  destruct (get url) as [response|e]; simpl.
  - destruct (soup_find L response "span" "class" "a-offscreen") as [[text|]|e];
      simpl; rewrite <- ?app_assoc; try reflexivity.
    destruct (float_of_str L _) as [price|e]; simpl;
      rewrite <- ?app_assoc; reflexivity.
  - rewrite <- ?app_assoc; reflexivity.
Qed.

Lemma name_trace_shape get url :
  exists logs, name_trace L get url = HttpGet url :: logs
    /\ notifications logs = [] /\ replies logs = []
    /\ requests logs = [] /\ inserts logs = [].
Proof.
  unfold name_trace, state_after, get_product_name,
    try_except, bind, requests_get, lift, logger_error, ret, emit.
  simpl.
  destruct (get url) as [response|e]; simpl.
  - destruct (soup_find L response "span" "id" "productTitle") as [[text|]|e];
      simpl; eexists; repeat split; reflexivity.
  - eexists; repeat split; reflexivity.
Qed.

Lemma price_trace_shape get url :
  exists logs, price_trace L get url = HttpGet url :: logs
    /\ notifications logs = [] /\ replies logs = []
    /\ requests logs = [] /\ inserts logs = [].
Proof.
  unfold price_trace, state_after, check_price,
    try_except, bind, requests_get, lift, logger_error, ret, emit.
  simpl.
  destruct (get url) as [response|e]; simpl.
  - destruct (soup_find L response "span" "class" "a-offscreen") as [[text|]|e];
      simpl; try (eexists; repeat split; reflexivity).
    destruct (float_of_str L _) as [price|e]; simpl;
      eexists; repeat split; reflexivity.
  - eexists; repeat split; reflexivity.
Qed.

Lemma price_trace_quiet get url : notifications (price_trace L get url) = [].
Proof.
  destruct (price_trace_shape get url) as (logs & -> & H & _). exact H.
Qed.

End ScraperFacts.

(** ** One iteration of the job *)

Section JobFacts.

Variable L : pylib.

Lemma drop_seen_not_null E i p price :
  drop_seen L E i p = Some price -> null_compared L E i p = false.
Proof.
  unfold drop_seen, null_compared.
  destruct (price_seen L (http E i) (product_url p)) as [cp|]; [|discriminate].
  destruct (PrimFloat.ltb cp (last_price p)) eqn:Hlt; [|discriminate].
  intros _. apply (ltb_not_null cp (last_price p) Hlt).
Qed.

Lemma check_one_run E i p st :
  check_one L E i p st =
  let st1 := {| db := db st;
                trace := trace st ++ price_trace L (http E i) (product_url p) |} in
  if null_compared L E i p then (Raise type_error, st1)
  else
    match drop_seen L E i p with
    | None => (Ok tt, st1)
    | Some price =>
        bind (send_message E i (user_id p)
                (drop_message L (product_name p) (last_price p) price (product_url p)))
             (fun _ => sql_update E i price (clock E i) (prod_id p)) st1
    end.
Proof.
  unfold check_one, drop_seen, null_compared, bind at 1.
  rewrite check_price_run.
  destruct (price_seen L (http E i) (product_url p)) as [price|]; [|reflexivity].
  destruct (is_null (last_price p)); [reflexivity|].
  destruct (PrimFloat.ltb price (last_price p)); reflexivity.
Qed.

(** The comparison with a [NULL] price raises, after the request and
    before anything else. *)
Lemma check_one_type_error E i p st :
  null_compared L E i p = true ->
  check_one L E i p st =
  (Raise type_error,
   {| db := db st;
      trace := trace st ++ price_trace L (http E i) (product_url p) |}).
Proof. intros H. rewrite check_one_run, H. reflexivity. Qed.

Lemma check_one_quiet E i p st :
  drop_seen L E i p = None ->
  null_compared L E i p = false ->
  check_one L E i p st =
  (Ok tt, {| db := db st;
             trace := trace st ++ price_trace L (http E i) (product_url p) |}).
Proof. intros H Hn. rewrite check_one_run, H, Hn. reflexivity. Qed.

Lemma check_one_send_fails E i p st price e :
  drop_seen L E i p = Some price ->
  telegram E i (user_id p)
    (drop_message L (product_name p) (last_price p) price (product_url p)) = Raise e ->
  check_one L E i p st =
  (Raise e,
   {| db := db st;
      trace := trace st ++ price_trace L (http E i) (product_url p)
        ++ [SendMessage (user_id p)
              (drop_message L (product_name p) (last_price p) price (product_url p))
              false] |}).
Proof.
  intros H Hs. rewrite check_one_run, H, (drop_seen_not_null E i p price H).
  unfold bind, send_message, emit. simpl. rewrite Hs. simpl.
  rewrite <- app_assoc. reflexivity.
Qed.

Lemma check_one_write_fails E i p st price e :
  drop_seen L E i p = Some price ->
  telegram E i (user_id p)
    (drop_message L (product_name p) (last_price p) price (product_url p)) = Ok tt ->
  sqlite_write E i = Raise e ->
  check_one L E i p st =
  (Raise e,
   {| db := db st;
      trace := trace st ++ price_trace L (http E i) (product_url p)
        ++ [SendMessage (user_id p)
              (drop_message L (product_name p) (last_price p) price (product_url p))
              true;
            SqlUpdate (prod_id p) price (clock E i) false] |}).
Proof.
  intros H Hs Hw. rewrite check_one_run, H, (drop_seen_not_null E i p price H).
  unfold bind, send_message, sql_update, emit. simpl. rewrite Hs, Hw. simpl.
  rewrite <- !app_assoc. reflexivity.
Qed.

Lemma check_one_done E i p st price :
  drop_seen L E i p = Some price ->
  telegram E i (user_id p)
    (drop_message L (product_name p) (last_price p) price (product_url p)) = Ok tt ->
  sqlite_write E i = Ok tt ->
  check_one L E i p st =
  (Ok tt,
   {| db := update_rows (db st) (sqlite_real price) (clock E i) (prod_id p);
      trace := trace st ++ price_trace L (http E i) (product_url p)
        ++ [SendMessage (user_id p)
              (drop_message L (product_name p) (last_price p) price (product_url p))
              true;
            SqlUpdate (prod_id p) price (clock E i) true] |}).
Proof.
  intros H Hs Hw. rewrite check_one_run, H, (drop_seen_not_null E i p price H).
  unfold bind, send_message, sql_update, emit. simpl. rewrite Hs, Hw. simpl.
  rewrite <- !app_assoc. reflexivity.
Qed.

(** An iteration either leaves the table alone, or completes with the
    one [UPDATE] of the row's [id]. *)
Lemma check_one_db E i p st :
  (db (state_after (check_one L E i p) st) = db st
   /\ (value_of (check_one L E i p) st = Ok tt ->
       drop_seen L E i p = None /\ null_compared L E i p = false))
  \/ (exists price,
        drop_seen L E i p = Some price
        /\ value_of (check_one L E i p) st = Ok tt
        /\ db (state_after (check_one L E i p) st)
           = update_rows (db st) (sqlite_real price) (clock E i) (prod_id p)).
Proof.
  unfold state_after, value_of.
  destruct (drop_seen L E i p) as [price|] eqn:Hd.
  - destruct (telegram E i (user_id p)
      (drop_message L (product_name p) (last_price p) price (product_url p)))
      as [[]|e] eqn:Hs.
    + destruct (sqlite_write E i) as [[]|e] eqn:Hw.
      * right. exists price.
        rewrite (check_one_done E i p st price Hd Hs Hw). auto.
      * left. rewrite (check_one_write_fails E i p st price e Hd Hs Hw).
        simpl. split; [reflexivity|discriminate].
    + left. rewrite (check_one_send_fails E i p st price e Hd Hs).
      simpl. split; [reflexivity|discriminate].
  - left. destruct (null_compared L E i p) eqn:Hn.
    + rewrite (check_one_type_error E i p st Hn). simpl.
      split; [reflexivity|discriminate].
    + rewrite (check_one_quiet E i p st Hd Hn). simpl. auto.
Qed.

Lemma for_each_cons E i p rest st :
  for_each L E i (p :: rest) st =
  match check_one L E i p st with
  | (Ok _, st1) => for_each L E (S i) rest st1
  | (Raise e, st1) => (Raise e, st1)
  end.
Proof. reflexivity. Qed.

Lemma for_each_app E before : forall i rest st st1,
  for_each L E i before st = (Ok tt, st1) ->
  for_each L E i (before ++ rest) st
  = for_each L E (i + List.length before) rest st1.
Proof.
  induction before as [|p before IH]; intros i rest st st1 H.
  - simpl in H. unfold ret in H. inversion H; subst.
    simpl. rewrite Nat.add_0_r. reflexivity.
  - simpl app. rewrite for_each_cons in *.
    destruct (check_one L E i p st) as [[[]|e] st2].
    + rewrite (IH (S i) rest st2 st1 H). simpl List.length.
      rewrite Nat.add_succ_r. reflexivity.
    + discriminate H.
Qed.

End JobFacts.

(** ** The table under [UPDATE] *)

Lemma set_price_id price checked id p :
  prod_id (set_price price checked id p) = prod_id p.
Proof. unfold set_price. destruct (prod_id p =? id); reflexivity. Qed.

Lemma set_price_other price checked id p :
  prod_id p <> id -> set_price price checked id p = p.
Proof.
  intros H. unfold set_price.
  destruct (Z.eqb_spec (prod_id p) id) as [Heq|_]; [contradiction|reflexivity].
Qed.

Lemma set_price_hit price checked p :
  last_price (set_price price checked (prod_id p) p) = price
  /\ last_checked (set_price price checked (prod_id p) p) = checked
  /\ user_id (set_price price checked (prod_id p) p) = user_id p
  /\ product_url (set_price price checked (prod_id p) p) = product_url p
  /\ product_name (set_price price checked (prod_id p) p) = product_name p.
Proof. unfold set_price. rewrite Z.eqb_refl. simpl. auto. Qed.

Lemma map_set_price_other price checked id rows :
  ~ In id (map prod_id rows) ->
  map (set_price price checked id) rows = rows.
Proof.
  induction rows as [|q rows IH]; simpl; intros H; [reflexivity|].
  rewrite set_price_other by (intros Heq; apply H; left; exact Heq).
  rewrite IH by (intros Hin; apply H; right; exact Hin).
  reflexivity.
Qed.

(** With a primary key, the [UPDATE] touches the one row it names. *)
Lemma update_rows_at pre p rest price checked :
  NoDup (map prod_id (pre ++ p :: rest)) ->
  map (set_price price checked (prod_id p)) (pre ++ p :: rest)
  = pre ++ set_price price checked (prod_id p) p :: rest.
Proof.
  intros H. rewrite map_app in H. simpl in H.
  apply NoDup_remove_2 in H.
  rewrite map_app. simpl.
  rewrite !map_set_price_other;
    [reflexivity | | ]; intros Hin; apply H; apply in_or_app; auto.
Qed.

Section TableFacts.

Variable L : pylib.

Lemma after_check_id E i p : prod_id (after_check L E i p) = prod_id p.
Proof.
  unfold after_check. destruct (drop_seen L E i p); [apply set_price_id|reflexivity].
Qed.

Lemma drop_seen_below E i p price :
  drop_seen L E i p = Some price ->
  price_seen L (http E i) (product_url p) = Some price
  /\ PrimFloat.ltb price (last_price p) = true.
Proof.
  unfold drop_seen.
  destruct (price_seen L (http E i) (product_url p)) as [cp|]; [|discriminate].
  destruct (PrimFloat.ltb cp (last_price p)) eqn:Hlt; [|discriminate].
  intros H. inversion H; subst. auto.
Qed.

Lemma settled_refl E rows : forall i, settled L E i rows rows.
Proof.
  induction rows as [|p rows IH]; intros i; constructor; auto.
Qed.

Lemma settled_ids E i rows rows' :
  settled L E i rows rows' -> map prod_id rows' = map prod_id rows.
Proof.
  induction 1 as [|i p p' rows rows' Hp _ IH]; simpl; [reflexivity|].
  rewrite IH. f_equal.
  destruct Hp as [->| ->]; [reflexivity|apply after_check_id].
Qed.

Lemma settled_nth E i rows rows' :
  settled L E i rows rows' ->
  forall k p, nth_error rows k = Some p ->
  exists p', nth_error rows' k = Some p'
    /\ (p' = p \/ p' = after_check L E (i + k) p).
Proof.
  induction 1 as [|i p0 p0' rows rows' Hp _ IH]; intros k p Hk.
  - destruct k; discriminate Hk.
  - destruct k as [|k]; simpl in Hk.
    + inversion Hk; subst. exists p0'. rewrite Nat.add_0_r. auto.
    + destruct (IH k p Hk) as (p' & Hn & Hp').
      exists p'. rewrite Nat.add_succ_r. auto.
Qed.

(** The loop invariant: with a primary key, the rows still to come are
    in the table as they were fetched, and the loop leaves each of them
    either untouched or as its own iteration sets it.  Rows [pre] before
    and [post] after the ones the loop runs over are not touched. *)
Lemma for_each_settled E rest : forall i pre post st,
  products (db st) = pre ++ rest ++ post ->
  NoDup (map prod_id (pre ++ rest ++ post)) ->
  exists rest',
    products (db (state_after (for_each L E i rest) st)) = pre ++ rest' ++ post
    /\ sqlite_sequence (db (state_after (for_each L E i rest) st))
       = sqlite_sequence (db st)
    /\ settled L E i rest rest'
    /\ (value_of (for_each L E i rest) st = Ok tt ->
        rest' = checked_rows L E i rest).
Proof.
  induction rest as [|p rest IH]; intros i pre post st Hdb Hkey.
  - exists []. unfold state_after, value_of. simpl.
    repeat split; auto. constructor.
  - unfold state_after, value_of in *. rewrite for_each_cons.
    destruct (check_one_db L E i p st) as [[Hsame Hnone]|(price & Hd & Hok & Hupd)];
      unfold state_after, value_of in *;
      destruct (check_one L E i p st) as [[[]|e] st1] eqn:Hrun; simpl in *.
    + destruct (Hnone eq_refl) as [Hnone' _].
      destruct (IH (S i) (pre ++ [p]) post st1) as (rest' & H1 & H2 & H3 & H4).
      * rewrite Hsame, Hdb, <- app_assoc. reflexivity.
      * rewrite <- app_assoc. exact Hkey.
      * exists (p :: rest'). rewrite H1, H2, Hsame, <- app_assoc.
        repeat split; auto.
        -- constructor; auto.
        -- intros Hv. rewrite (H4 Hv). simpl. unfold after_check.
           rewrite Hnone'. reflexivity.
    + exists (p :: rest). rewrite Hsame.
      repeat split; auto.
      * apply settled_refl.
      * discriminate.
    + assert (Hp' : after_check L E i p
                    = set_price (sqlite_real price) (clock E i) (prod_id p) p)
        by (unfold after_check; rewrite Hd; reflexivity).
      destruct (IH (S i) (pre ++ [after_check L E i p]) post st1)
        as (rest' & H1 & H2 & H3 & H4).
      * rewrite Hupd. unfold update_rows. simpl. rewrite Hdb.
        rewrite (update_rows_at pre p (rest ++ post) (sqlite_real price)
                   (clock E i) Hkey).
        rewrite Hp', <- app_assoc. reflexivity.
      * rewrite <- app_assoc. simpl.
        rewrite map_app in *. simpl in *. rewrite after_check_id. exact Hkey.
      * exists (after_check L E i p :: rest').
        rewrite H1, H2, Hupd, <- app_assoc.
        repeat split; auto.
        -- constructor; auto.
        -- intros Hv. rewrite (H4 Hv). reflexivity.
    + discriminate Hok.
Qed.

End TableFacts.

(** ** One run of the job *)

Section CycleFacts.

Variable L : pylib.

Lemma check_all_prices_run E st :
  check_all_prices L E st =
  match sqlite_read E with
  | Ok _ =>
      match for_each L E 0 (products (db st)) (emit (SqlSelect true) st) with
      | (Ok _, st') => (Ok tt, st')
      | (Raise e, st') =>
          (Ok tt, emit (LoggerError ("Error in check_all_prices: " ++ str e)%string) st')
      end
  | Raise e =>
      (Ok tt, emit (LoggerError ("Error in check_all_prices: " ++ str e)%string)
                (emit (SqlSelect false) st))
  end.
Proof.
  unfold check_all_prices, try_except, bind, sql_select, logger_error.
  destruct (sqlite_read E) as [[]|e]; [|reflexivity].
  destruct (for_each L E 0 (products (db st)) (emit (SqlSelect true) st))
    as [[[]|e] st']; reflexivity.
Qed.

(** The job itself never raises. *)
Lemma check_all_prices_returns E st :
  value_of (check_all_prices L E) st = Ok tt.
Proof.
  unfold value_of. rewrite check_all_prices_run.
  destruct (sqlite_read E) as [[]|e]; [|reflexivity].
  destruct (for_each L E 0 (products (db st)) (emit (SqlSelect true) st))
    as [[[]|e] st']; reflexivity.
Qed.

Lemma completes_loop E st :
  completes L E st ->
  sqlite_read E = Ok tt
  /\ value_of (for_each L E 0 (products (db st))) (emit (SqlSelect true) st) = Ok tt.
Proof.
  unfold completes, value_of, bind, sql_select.
  destruct (sqlite_read E) as [[]|e]; [auto|discriminate].
Qed.

Lemma check_all_prices_split E st before p after st1 :
  products (db st) = before ++ p :: after ->
  reaches L E st before st1 ->
  check_all_prices L E st =
  match check_one L E (List.length before) p st1 with
  | (Ok _, st2) =>
      match for_each L E (S (List.length before)) after st2 with
      | (Ok _, st3) => (Ok tt, st3)
      | (Raise e, st3) =>
          (Ok tt, emit (LoggerError ("Error in check_all_prices: " ++ str e)%string) st3)
      end
  | (Raise e, st2) =>
      (Ok tt, emit (LoggerError ("Error in check_all_prices: " ++ str e)%string) st2)
  end.
Proof.
  intros Hdb [Hread Hloop].
  rewrite check_all_prices_run, Hread, Hdb.
  rewrite (for_each_app L E before 0 (p :: after) _ st1 Hloop).
  simpl Nat.add. rewrite for_each_cons.
  destruct (check_one L E (List.length before) p st1) as [[[]|e] st2]; reflexivity.
Qed.

(** When an iteration raises, the run ends there: the exception is
    logged and the rows after it are not looked at. *)
Lemma raise_ends_the_run E st before p after st1 e :
  products (db st) = before ++ p :: after ->
  reaches L E st before st1 ->
  value_of (check_one L E (List.length before) p) st1 = Raise e ->
  state_after (check_all_prices L E) st
  = emit (LoggerError ("Error in check_all_prices: " ++ str e)%string)
      (state_after (check_one L E (List.length before) p) st1).
Proof.
  intros Hdb Hreach Hraise. unfold state_after, value_of in *.
  rewrite (check_all_prices_split E st before p after st1 Hdb Hreach).
  destruct (check_one L E (List.length before) p st1) as [[[]|e'] st2];
    simpl in *; [discriminate|].
  inversion Hraise; subst. reflexivity.
Qed.

(** A lookup that fails does not end the run: the iteration completes
    and the loop goes on to the next row. *)
Lemma failed_lookup_goes_on E i p rest st :
  price_seen L (http E i) (product_url p) = None ->
  for_each L E i (p :: rest) st
  = for_each L E (S i) rest
      {| db := db st;
         trace := trace st ++ price_trace L (http E i) (product_url p) |}.
Proof.
  intros Hnone. rewrite for_each_cons, check_one_quiet; [reflexivity| |].
  - unfold drop_seen. rewrite Hnone. reflexivity.
  - unfold null_compared. rewrite Hnone. reflexivity.
Qed.

Lemma reaches_db E st before rest st1 :
  primary_key (db st) ->
  products (db st) = before ++ rest ->
  reaches L E st before st1 ->
  products (db st1) = checked_rows L E 0 before ++ rest
  /\ sqlite_sequence (db st1) = sqlite_sequence (db st).
Proof.
  unfold primary_key. intros Hkey Hdb [_ Hloop].
  destruct (for_each_settled L E before 0 [] rest (emit (SqlSelect true) st))
    as (rows' & H1 & H2 & _ & H4).
  - simpl. exact Hdb.
  - simpl. rewrite <- Hdb. exact Hkey.
  - unfold state_after, value_of in *. rewrite Hloop in *. simpl in *.
    rewrite H1, (H4 eq_refl). auto.
Qed.

(** Whatever happens during a run, every row is afterwards either as it
    was or as its own iteration set it. *)
Lemma cycle_settled E st :
  primary_key (db st) ->
  settled L E 0 (products (db st))
    (products (db (state_after (check_all_prices L E) st)))
  /\ sqlite_sequence (db (state_after (check_all_prices L E) st))
     = sqlite_sequence (db st).
Proof.
  unfold primary_key. intros Hkey.
  unfold state_after. rewrite check_all_prices_run.
  destruct (sqlite_read E) as [[]|e]; [|simpl; split; [apply settled_refl|reflexivity]].
  destruct (for_each_settled L E (products (db st)) 0 [] []
              (emit (SqlSelect true) st))
    as (rows' & H1 & H2 & H3 & _).
  - simpl. rewrite app_nil_r. reflexivity.
  - simpl. rewrite app_nil_r. exact Hkey.
  - unfold state_after in *. simpl in H1. rewrite app_nil_r in H1.
    destruct (for_each L E 0 (products (db st)) (emit (SqlSelect true) st))
      as [[[]|e] st']; simpl in *; rewrite H1; auto.
Qed.


(** Rows that show no drop, and whose price is not [NULL] when it is
    compared, are passed over without a message or a write. *)
Lemma for_each_quiet E rows : forall i st,
  (forall k p, nth_error rows k = Some p ->
     drop_seen L E (i + k) p = None /\ null_compared L E (i + k) p = false) ->
  exists st',
    for_each L E i rows st = (Ok tt, st')
    /\ db st' = db st
    /\ notifications (trace st') = notifications (trace st).
Proof.
  induction rows as [|p rows IH]; intros i st Hq.
  - exists st. simpl. auto.
  - destruct (Hq 0%nat p eq_refl) as [Hd Hn]. rewrite Nat.add_0_r in Hd, Hn.
    rewrite for_each_cons, (check_one_quiet L E i p st Hd Hn).
    destruct (IH (S i)
      {| db := db st;
         trace := trace st ++ price_trace L (http E i) (product_url p) |})
      as (st' & H1 & H2 & H3).
    + intros k q Hk.
      replace (S i + k)%nat with (i + S k)%nat by lia.
      apply (Hq (S k) q Hk).
    + exists st'. rewrite H1, H2, H3. simpl.
      rewrite notifications_app, price_trace_quiet, app_nil_r. auto.
Qed.



End CycleFacts.

(** ** Looking a row up by its [id] *)

Lemma row_with_id_at d pre p rest :
  products d = pre ++ p :: rest ->
  NoDup (map prod_id (products d)) ->
  row_with_id d (prod_id p) = Some p.
Proof.
  unfold row_with_id. intros -> Hkey.
  induction pre as [|q pre IH]; simpl in *.
  - rewrite Z.eqb_refl. reflexivity.
  - inversion Hkey as [|x l Hnotin Hrest]; subst.
    destruct (Z.eqb_spec (prod_id q) (prod_id p)) as [Heq|_].
    + exfalso. apply Hnotin. rewrite Heq, map_app. apply in_or_app.
      right. left. reflexivity.
    + apply IH. exact Hrest.
Qed.

Lemma row_with_id_nth d k p :
  nth_error (products d) k = Some p ->
  NoDup (map prod_id (products d)) ->
  row_with_id d (prod_id p) = Some p.
Proof.
  intros Hk Hkey.
  destruct (nth_error_split (products d) k Hk) as (pre & rest & Hsplit & _).
  apply (row_with_id_at d pre p rest Hsplit Hkey).
Qed.

Lemma nth_error_middle (A : Type) (pre : list A) (x : A) (rest : list A) :
  nth_error (pre ++ x :: rest) (List.length pre) = Some x.
Proof.
  induction pre as [|y pre IH]; simpl; [reflexivity|exact IH].
Qed.

Lemma largest_rowid_bound d p :
  In p (products d) -> prod_id p <= largest_rowid d.
Proof.
  unfold largest_rowid.
  induction (products d) as [|q rows IH]; simpl; [contradiction|].
  intros [->|Hin]; [lia|]. specialize (IH Hin). lia.
Qed.

(** ** Strings *)

Lemma string_app_assoc (a b c : string) :
  ((a ++ b) ++ c = a ++ b ++ c)%string.
Proof.
  induction a as [|ch a IH]; simpl; [reflexivity|]. rewrite IH. reflexivity.
Qed.

Lemma string_app_nil_r (a : string) : (a ++ EmptyString = a)%string.
Proof.
  induction a as [|ch a IH]; simpl; [reflexivity|]. rewrite IH. reflexivity.
Qed.

Lemma drop_message_contains L name old_price new_price url :
  contains (drop_message L name old_price new_price url) name
  /\ contains (drop_message L name old_price new_price url) (format_float L old_price)
  /\ contains (drop_message L name old_price new_price url) (format_float L new_price)
  /\ contains (drop_message L name old_price new_price url) url.
Proof.
  unfold contains, drop_message. repeat split.
  - eexists. eexists. rewrite <- string_app_assoc. reflexivity.
  - eexists. eexists. rewrite <- 6 string_app_assoc. reflexivity.
  - eexists. eexists. rewrite <- 9 string_app_assoc. reflexivity.
  - eexists. exists EmptyString. rewrite string_app_nil_r.
    rewrite <- 11 string_app_assoc. reflexivity.
Qed.

(** * The price-check cycle *)

Section Cycle.

Variable L : pylib.

Lemma checked_rows_ids E rows : forall i,
  map prod_id (checked_rows L E i rows) = map prod_id rows.
Proof.
  induction rows as [|p rows IH]; intros i; simpl; [reflexivity|].
  rewrite IH, after_check_id. reflexivity.
Qed.


Lemma notifications_emit_log st message :
  notifications (trace (emit (LoggerError message) st)) = notifications (trace st).
Proof.
  unfold emit. simpl. rewrite notifications_app. simpl. apply app_nil_r.
Qed.

Lemma notifications_emit_select st done :
  notifications (trace (emit (SqlSelect done) st)) = notifications (trace st).
Proof.
  unfold emit. simpl. rewrite notifications_app. simpl. apply app_nil_r.
Qed.

(** The table after a run in which the row after [before] was reached
    and its iteration completed in [st2]. *)
Lemma split_db E st before p after st1 st2 :
  products (db st) = before ++ p :: after ->
  reaches L E st before st1 ->
  check_one L E (List.length before) p st1 = (Ok tt, st2) ->
  db (state_after (check_all_prices L E) st)
  = db (state_after (for_each L E (S (List.length before)) after) st2).
Proof.
  intros Hdb Hreach Hone. unfold state_after.
  rewrite (check_all_prices_split L E st before p after st1 Hdb Hreach), Hone.
  destruct (for_each L E (S (List.length before)) after st2) as [[[]|e] st3];
    reflexivity.
Qed.

(** C2 (as amended).  When the job reaches a row, the lookup returns a
    price strictly below the stored [last_price], Telegram accepts the
    message and SQLite accepts the write, then the iteration sends exactly
    one notification, to the row's [user_id], whose text holds the
    product name, the old price, the new price and the link; and both
    right after the iteration and at the end of the run the table holds
    the new price (as a [REAL] column keeps it, and with the time of the
    check) for that row.  The job does not reach a row that follows one
    whose stored price is [NULL] and whose lookup succeeded: the
    comparison raises there. *)
Theorem drop_notifies_once_and_updates E st before p after st1 price :
  primary_key (db st) ->
  products (db st) = before ++ p :: after ->
  reaches L E st before st1 ->
  price_seen L (http E (List.length before)) (product_url p) = Some price ->
  PrimFloat.ltb price (last_price p) = true ->
  telegram E (List.length before) (user_id p)
    (drop_message L (product_name p) (last_price p) price (product_url p)) = Ok tt ->
  sqlite_write E (List.length before) = Ok tt ->
  let i := List.length before in
  let text := drop_message L (product_name p) (last_price p) price (product_url p) in
  let st2 := state_after (check_one L E i p) st1 in
  let final := state_after (check_all_prices L E) st in
  let p' := set_price (sqlite_real price) (clock E i) (prod_id p) p in
  notifications (trace st2) = notifications (trace st1) ++ [(user_id p, text)]
  /\ contains text (product_name p)
  /\ contains text (format_float L (last_price p))
  /\ contains text (format_float L price)
  /\ contains text (product_url p)
  /\ row_with_id (db st2) (prod_id p) = Some p'
  /\ row_with_id (db final) (prod_id p) = Some p'
  /\ last_price p' = sqlite_real price
  /\ last_checked p' = clock E i.
Proof.
  intros Hkey Hdb Hreach Hseen Hlt Hsend Hwrite i text st2 final p'.
  assert (Hd : drop_seen L E i p = Some price)
    by (unfold drop_seen, i; rewrite Hseen, Hlt; reflexivity).
  pose proof (check_one_done L E i p st1 price Hd Hsend Hwrite) as Hone.
  destruct (reaches_db L E st before (p :: after) st1 Hkey Hdb Hreach) as [Hrows _].
  assert (Hids : NoDup (map prod_id (checked_rows L E 0 before ++ p :: after))).
  { rewrite map_app, checked_rows_ids, <- map_app, <- Hdb. exact Hkey. }
  assert (Hrows2 : products (db st2) = checked_rows L E 0 before ++ p' :: after).
  { unfold st2, state_after. rewrite Hone. simpl. rewrite Hrows.
    apply update_rows_at. exact Hids. }
  assert (Hids2 : NoDup (map prod_id (checked_rows L E 0 before ++ p' :: after))).
  { rewrite map_app in *. simpl in *. unfold p'. rewrite set_price_id. exact Hids. }
  destruct (drop_message_contains L (product_name p) (last_price p) price
              (product_url p)) as (C1 & C2 & C3 & C4).
  repeat split; auto.
  - unfold st2, state_after. rewrite Hone. simpl.
    rewrite !notifications_app, price_trace_quiet. reflexivity.
  - replace (prod_id p) with (prod_id p') by apply set_price_id.
    apply (row_with_id_at (db st2) (checked_rows L E 0 before) p' after Hrows2).
    rewrite Hrows2. exact Hids2.
  - replace (prod_id p) with (prod_id p') by apply set_price_id.
    unfold final.
    rewrite (split_db E st before p after st1 st2 Hdb Hreach)
      by (fold i; unfold st2, state_after; rewrite Hone; reflexivity).
    destruct (for_each_settled L E after (S i) (checked_rows L E 0 before ++ [p']) []
                st2) as (rows' & H1 & _ & H3 & _).
    + rewrite Hrows2, <- app_assoc, app_nil_r. reflexivity.
    + rewrite <- app_assoc, app_nil_r. exact Hids2.
    + rewrite <- app_assoc, app_nil_r in H1. simpl in H1.
      apply (row_with_id_at _ (checked_rows L E 0 before) p' rows' H1).
      rewrite H1, map_app. simpl. rewrite (settled_ids L E (S i) after rows' H3).
      rewrite map_app in Hids2. exact Hids2.
  - apply set_price_hit.
  - apply set_price_hit.
Qed.

(** C3.  When the lookup for a row fails, or returns a price that is
    greater than or equal to the stored [last_price], the row's iteration
    completes without a notification and without touching the table, and
    at the end of the run the row is in the table exactly as it was, at
    the same place: [last_price] and [last_checked] are unchanged. *)
Theorem no_drop_leaves_row_alone E st before p after :
  primary_key (db st) ->
  products (db st) = before ++ p :: after ->
  (price_seen L (http E (List.length before)) (product_url p) = None
   \/ exists price,
        price_seen L (http E (List.length before)) (product_url p) = Some price
        /\ PrimFloat.leb (last_price p) price = true) ->
  let i := List.length before in
  let final := state_after (check_all_prices L E) st in
  (forall st1,
     value_of (check_one L E i p) st1 = Ok tt
     /\ db (state_after (check_one L E i p) st1) = db st1
     /\ notifications (trace (state_after (check_one L E i p) st1))
        = notifications (trace st1))
  /\ nth_error (products (db final)) i = Some p
  /\ row_with_id (db final) (prod_id p) = Some p.
Proof.
  intros Hkey Hdb Hno i final.
  assert (Hd : drop_seen L E i p = None).
  { unfold drop_seen, i.
    destruct Hno as [->|(price & -> & Hle)]; [reflexivity|].
    rewrite (leb_not_ltb price (last_price p) Hle). reflexivity. }
  assert (Hnull : null_compared L E i p = false).
  { unfold null_compared, i.
    destruct Hno as [->|(price & -> & Hle)]; [reflexivity|].
    apply (leb_not_null (last_price p) price Hle). }
  destruct (cycle_settled L E st Hkey) as [Hset _].
  assert (Hnth : nth_error (products (db final)) i = Some p).
  { destruct (settled_nth L E 0 _ _ Hset i p) as (p' & Hn & Hp').
    - rewrite Hdb. apply nth_error_middle.
    - unfold final. rewrite Hn. f_equal.
      destruct Hp' as [->| ->]; [reflexivity|].
      unfold after_check. simpl. rewrite Hd. reflexivity. }
  split; [|split].
  - intros st1. unfold value_of, state_after.
    rewrite (check_one_quiet L E i p st1 Hd Hnull). simpl.
    rewrite notifications_app, price_trace_quiet, app_nil_r. auto.
  - exact Hnth.
  - apply (row_with_id_nth (db final) i p Hnth).
    unfold final. rewrite (settled_ids L E 0 _ _ Hset). exact Hkey.
Qed.


(** C9.  In an iteration that sees a drop, [send_message] is called
    first and the [UPDATE] is issued only after it returned.  So when the
    message went out and the write then raises, the iteration raises, the
    table (and with it the stored [last_price]) is as before, one
    notification has been sent, and the run ends there; an iteration over
    the same row that sees the same price again, as in the next run,
    sends the same notification a second time. *)
Theorem notification_precedes_update E i p st price :
  drop_seen L E i p = Some price ->
  let text := drop_message L (product_name p) (last_price p) price (product_url p) in
  let sent := telegram E i (user_id p) text in
  let st' := state_after (check_one L E i p) st in
  trace st' =
    trace st ++ price_trace L (http E i) (product_url p)
      ++ SendMessage (user_id p) text (succeeded sent)
         :: (if succeeded sent
             then [SqlUpdate (prod_id p) price (clock E i)
                     (succeeded (sqlite_write E i))]
             else [])
  /\ (forall e, sent = Ok tt -> sqlite_write E i = Raise e ->
        value_of (check_one L E i p) st = Raise e
        /\ db st' = db st
        /\ notifications (trace st') = notifications (trace st) ++ [(user_id p, text)]
        /\ (forall st0 before after,
              products (db st0) = before ++ p :: after ->
              i = List.length before ->
              reaches L E st0 before st ->
              db (state_after (check_all_prices L E) st0) = db st
              /\ notifications (trace (state_after (check_all_prices L E) st0))
                 = notifications (trace st) ++ [(user_id p, text)])
        /\ (forall E2 j st2,
              price_seen L (http E2 j) (product_url p) = Some price ->
              telegram E2 j (user_id p) text = Ok tt ->
              notifications (trace (state_after (check_one L E2 j p) st2))
              = notifications (trace st2) ++ [(user_id p, text)])).
Proof.
  intros Hd text sent st'. split.
  - unfold st', state_after, sent, text.
    destruct (telegram E i (user_id p)
      (drop_message L (product_name p) (last_price p) price (product_url p)))
      as [[]|e] eqn:Hs.
    + destruct (sqlite_write E i) as [[]|e] eqn:Hw.
      * rewrite (check_one_done L E i p st price Hd Hs Hw). reflexivity.
      * rewrite (check_one_write_fails L E i p st price e Hd Hs Hw). reflexivity.
    + rewrite (check_one_send_fails L E i p st price e Hd Hs). reflexivity.
  - intros e Hs Hw.
    pose proof (check_one_write_fails L E i p st price e Hd Hs Hw) as Hone.
    assert (Hn : notifications (trace st')
                 = notifications (trace st) ++ [(user_id p, text)]).
    { unfold st', state_after. rewrite Hone. simpl.
      rewrite !notifications_app, price_trace_quiet. reflexivity. }
    split; [|split; [|split; [|split]]].
    + unfold value_of. rewrite Hone. reflexivity.
    + unfold st', state_after. rewrite Hone. reflexivity.
    + exact Hn.
    + intros st0 before after Hdb Hi Hreach. subst i.
      rewrite (raise_ends_the_run L E st0 before p after st e Hdb Hreach)
        by (unfold value_of; rewrite Hone; reflexivity).
      split.
      * unfold state_after. rewrite Hone. reflexivity.
      * rewrite notifications_emit_log. exact Hn.
    + intros E2 j st2 Hseen Hs2.
      destruct (drop_seen_below L E i p price Hd) as [_ Hlt].
      assert (Hd2 : drop_seen L E2 j p = Some price)
        by (unfold drop_seen; rewrite Hseen, Hlt; reflexivity).
      unfold state_after.
      destruct (sqlite_write E2 j) as [[]|e2] eqn:Hw2.
      * rewrite (check_one_done L E2 j p st2 price Hd2 Hs2 Hw2). simpl.
        rewrite !notifications_app, price_trace_quiet. reflexivity.
      * rewrite (check_one_write_fails L E2 j p st2 price e2 Hd2 Hs2 Hw2). simpl.
        rewrite !notifications_app, price_trace_quiet. reflexivity.
Qed.

End Cycle.

(** * The registrar *)

Section Registrar.

Variable L : pylib.

(** Without a message the handler raises at its first line. *)
Lemma handle_link_no_message E update st :
  message update = None ->
  handle_link L E update st = (Raise (attribute_error "from_user"), st).
Proof. intros H. unfold handle_link. rewrite H. reflexivity. Qed.

Lemma handle_link_run E m st :
  handle_link L E (with_message m) st =
  let url := strip L (message_text m) in
  let st1 := {| db := db st; trace := trace st ++ name_trace L (http E 0) url |} in
  match name_seen L (http E 0) url with
  | None => reply_text E 0 parse_failure_message st1
  | Some name =>
      let st2 := {| db := db st;
                    trace := trace st1 ++ price_trace L (http E 1) url |} in
      match price_seen L (http E 1) url with
      | None => reply_text E 0 price_failure_message st2
      | Some price =>
          try_except
            (bind (sql_insert E 0 (from_user_id m) url name price (clock E 0))
                  (fun _ => reply_text E 0 (added_message L name price)))
            (fun e =>
               bind (logger_error
                       ("Error inserting product into database: " ++ str e)%string)
                    (fun _ => reply_text E 1 insert_error_message))
            st2
      end
  end.
Proof.
  unfold handle_link, with_message, name_seen. simpl. unfold bind at 1.
  rewrite get_product_name_run.
  destruct (name_value L (http E 0) (strip L (message_text m))) as [name|];
    [|reflexivity].
  destruct (nonempty name); [|reflexivity].
  unfold bind at 1. rewrite check_price_run.
  destruct (price_seen L (http E 1) (strip L (message_text m))); reflexivity.
Qed.

(** What a request adds to the trace and does to the table, case by
    case. *)
Lemma handle_link_cases E m st :
  let url := strip L (message_text m) in
  let st' := state_after (handle_link L E (with_message m)) st in
  match name_seen L (http E 0) url with
  | None =>
      db st' = db st
      /\ trace st' = trace st ++ name_trace L (http E 0) url
           ++ [ReplyText parse_failure_message
                 (succeeded (reply E 0 parse_failure_message))]
  | Some name =>
      match price_seen L (http E 1) url with
      | None =>
          db st' = db st
          /\ trace st' = trace st ++ name_trace L (http E 0) url
               ++ price_trace L (http E 1) url
               ++ [ReplyText price_failure_message
                     (succeeded (reply E 0 price_failure_message))]
      | Some price =>
          let row := new_row L E m (db st) name price in
          exists rest,
            trace st' = trace st ++ name_trace L (http E 0) url
              ++ price_trace L (http E 1) url
              ++ SqlInsert row (succeeded (sqlite_write E 0)) :: rest
            /\ inserts rest = [] /\ requests rest = []
            /\ db st' = (if succeeded (sqlite_write E 0)
                         then insert_row (db st) row else db st)
            /\ (sqlite_write E 0 = Ok tt ->
                replies rest = [added_message L name price]
                \/ replies rest = [added_message L name price; insert_error_message])
            /\ (succeeded (sqlite_write E 0) = false ->
                replies rest = [insert_error_message])
      end
  end.
Proof.
  intros url st'. subst url st'. unfold state_after.
  rewrite handle_link_run. cbv zeta.
  destruct (name_seen L (http E 0) (strip L (message_text m))) as [name|].
  - destruct (price_seen L (http E 1) (strip L (message_text m))) as [price|].
    + unfold try_except, bind, sql_insert, reply_text, logger_error, emit.
      fold (new_row L E m (db st) name price).
      destruct (sqlite_write E 0) as [[]|e]; simpl.
      * destruct (reply E 0 (added_message L name price)) as [[]|e]; simpl;
          eexists; rewrite <- !app_assoc; simpl;
          (split; [reflexivity|]); repeat (split; [reflexivity|]);
          (split; [intros _; auto | intros H; discriminate H]).
      * eexists. rewrite <- !app_assoc. simpl.
        (split; [reflexivity|]); repeat (split; [reflexivity|]).
        split; [intros H; discriminate H | intros _; reflexivity].
    + unfold reply_text, emit. simpl. rewrite <- !app_assoc. auto.
  - unfold reply_text, emit. simpl. rewrite <- !app_assoc. auto.
Qed.

(** Whatever the update, the table is left alone or gains the one row
    of a registration that went through. *)
Lemma handle_link_db E update st :
  db (state_after (handle_link L E update) st) = db st
  \/ exists m name price,
       message update = Some m
       /\ name_seen L (http E 0) (strip L (message_text m)) = Some name
       /\ price_seen L (http E 1) (strip L (message_text m)) = Some price
       /\ sqlite_write E 0 = Ok tt
       /\ db (state_after (handle_link L E update) st)
          = insert_row (db st) (new_row L E m (db st) name price).
Proof.
  destruct update as [[m|]].
  - change {| message := Some m |} with (with_message m).
    pose proof (handle_link_cases E m st) as H. cbv zeta in H.
    destruct (name_seen L (http E 0) (strip L (message_text m))) as [name|] eqn:Hn.
    + destruct (price_seen L (http E 1) (strip L (message_text m))) as [price|] eqn:Hp.
      * destruct H as (rest & _ & _ & _ & Hdb & _).
        destruct (sqlite_write E 0) as [[]|e] eqn:Hw; simpl in Hdb.
        -- right. exists m, name, price. auto.
        -- left. exact Hdb.
      * left. apply H.
    + left. apply H.
  - left. unfold state_after. rewrite handle_link_no_message; reflexivity.
Qed.

End Registrar.

Section RegistrarClaims.

Variable L : pylib.

Lemma name_seen_nonempty get url name :
  name_seen L get url = Some name -> nonempty name = true.
Proof.
  unfold name_seen. destruct (name_value L get url) as [found|]; [|discriminate].
  destruct (nonempty found) eqn:Hne; [|discriminate].
  intros H. inversion H; subst. exact Hne.
Qed.

Lemma cannot_grow_by_nothing (A : Type) (l : list A) (x : A) : l <> l ++ [x].
Proof.
  intros H. rewrite <- (app_nil_r l) in H at 1.
  apply app_inv_head in H. discriminate H.
Qed.

(** C5 (as amended).  [handle_link] asks for the name first and asks
    for the price only when a name came back.  The table gains a row
    exactly when both came back and SQLite accepted the [INSERT]; it is
    as it was in every other case, so on any failed lookup.  The row
    carries the name just resolved, which is not empty, and the price
    just resolved as a [REAL] column keeps it: a price when that price
    is a number.  So, as long as no resolved price is a NaN, no row is
    ever without a name or without a price. *)
Theorem registrar_stores_iff_resolved_and_written E m st :
  let url := strip L (message_text m) in
  let st' := state_after (handle_link L E (with_message m)) st in
  exists added,
    trace st' = trace st ++ added
    /\ (name_seen L (http E 0) url = None ->
        requests added = [url] /\ inserts added = [] /\ db st' = db st)
    /\ (forall name, name_seen L (http E 0) url = Some name ->
        requests added = [url; url]
        /\ (price_seen L (http E 1) url = None ->
            inserts added = [] /\ db st' = db st)
        /\ (forall price, price_seen L (http E 1) url = Some price ->
            let row := new_row L E m (db st) name price in
            inserts added = [row]
            /\ product_name row = name
            /\ nonempty (product_name row) = true
            /\ last_price row = sqlite_real price
            /\ (PrimFloat.is_nan price = false -> is_null (last_price row) = false)
            /\ (sqlite_write E 0 = Ok tt ->
                products (db st') = products (db st) ++ [row]
                /\ sqlite_sequence (db st') = prod_id row)
            /\ (forall e, sqlite_write E 0 = Raise e -> db st' = db st)))
    /\ ((exists row, products (db st') = products (db st) ++ [row]) <->
        (exists name price,
           name_seen L (http E 0) url = Some name
           /\ price_seen L (http E 1) url = Some price
           /\ sqlite_write E 0 = Ok tt))
    /\ ((forall price,
           price_seen L (http E 1) url = Some price ->
           PrimFloat.is_nan price = false) ->
        Forall (fun p => nonempty (product_name p) = true
                         /\ is_null (last_price p) = false) (products (db st)) ->
        Forall (fun p => nonempty (product_name p) = true
                         /\ is_null (last_price p) = false) (products (db st'))).
Proof.
  intros url st'.
  pose proof (handle_link_cases L E m st) as H. cbv zeta in H.
  fold url in H. fold st' in H.
  destruct (name_trace_shape L (http E 0) url) as (nlogs & Hnt & _ & _ & Hnr & Hni).
  destruct (price_trace_shape L (http E 1) url) as (plogs & Hpt & _ & _ & Hpr & Hpi).
  destruct (name_seen L (http E 0) url) as [name|] eqn:Hname.
  - destruct (price_seen L (http E 1) url) as [price|] eqn:Hprice.
    + destruct H as (rest & Ht & Hi & Hr & Hdb & _).
      eexists. split; [exact Ht|].
      assert (Hreq : requests (name_trace L (http E 0) url
                 ++ price_trace L (http E 1) url
                 ++ SqlInsert (new_row L E m (db st) name price)
                      (succeeded (sqlite_write E 0)) :: rest) = [url; url]).
      { rewrite Hnt, Hpt. read_trace. rewrite Hnr, Hpr, Hr. reflexivity. }
      assert (Hins : inserts (name_trace L (http E 0) url
                 ++ price_trace L (http E 1) url
                 ++ SqlInsert (new_row L E m (db st) name price)
                      (succeeded (sqlite_write E 0)) :: rest)
               = [new_row L E m (db st) name price]).
      { rewrite Hnt, Hpt. read_trace. rewrite Hni, Hpi, Hi. reflexivity. }
      pose proof (name_seen_nonempty (http E 0) url name Hname) as Hne.
      split; [discriminate|]. split; [|split].
      * intros name' Hn'. inversion Hn'; subst name'.
        split; [exact Hreq|]. split; [discriminate|].
        intros price' Hp'. inversion Hp'; subst price'. cbv zeta.
        split; [exact Hins|]. split; [reflexivity|]. split; [exact Hne|].
        split; [reflexivity|]. split.
        { intros Hnan. unfold new_row. simpl. rewrite sqlite_real_null. exact Hnan. }
        split.
        -- intros Hw. rewrite Hdb, Hw. simpl. auto.
        -- intros e Hw. rewrite Hdb, Hw. reflexivity.
      * rewrite Hdb. destruct (sqlite_write E 0) as [[]|e]; simpl.
        -- split; [intros _; exists name, price; auto|].
           intros _. eexists. reflexivity.
        -- split.
           ++ intros (row & Hrow). exfalso.
              apply (cannot_grow_by_nothing _ _ _ Hrow).
           ++ intros (n & pr & _ & _ & Hc). discriminate Hc.
      * intros Hnum Hall. rewrite Hdb.
        destruct (succeeded (sqlite_write E 0)); [|exact Hall].
        unfold insert_row. simpl. apply Forall_app. split; [exact Hall|].
        constructor; [|constructor]. simpl. split; [exact Hne|].
        rewrite sqlite_real_null. apply (Hnum price eq_refl).
    + destruct H as [Hdb Ht].
      eexists. split; [exact Ht|].
      assert (Hreq : requests (name_trace L (http E 0) url
                 ++ price_trace L (http E 1) url
                 ++ [ReplyText price_failure_message
                       (succeeded (reply E 0 price_failure_message))]) = [url; url]).
      { rewrite Hnt, Hpt. read_trace. rewrite Hnr, Hpr. reflexivity. }
      assert (Hins : inserts (name_trace L (http E 0) url
                 ++ price_trace L (http E 1) url
                 ++ [ReplyText price_failure_message
                       (succeeded (reply E 0 price_failure_message))]) = []).
      { rewrite Hnt, Hpt. read_trace. rewrite Hni, Hpi. reflexivity. }
      split; [discriminate|]. split; [|split].
      * intros name' Hn'. split; [exact Hreq|]. split; [auto|discriminate].
      * rewrite Hdb. split.
        -- intros (row & Hrow). exfalso.
           apply (cannot_grow_by_nothing _ _ _ Hrow).
        -- intros (n & pr & _ & Hc & _). discriminate Hc.
      * rewrite Hdb. auto.
  - destruct H as [Hdb Ht].
    eexists. split; [exact Ht|].
    assert (Hreq : requests (name_trace L (http E 0) url
               ++ [ReplyText parse_failure_message
                     (succeeded (reply E 0 parse_failure_message))]) = [url]).
    { rewrite Hnt. read_trace. rewrite Hnr. reflexivity. }
    assert (Hins : inserts (name_trace L (http E 0) url
               ++ [ReplyText parse_failure_message
                     (succeeded (reply E 0 parse_failure_message))]) = []).
    { rewrite Hnt. read_trace. rewrite Hni. reflexivity. }
    split; [auto|]. split; [discriminate|]. split.
    + rewrite Hdb. split.
      * intros (row & Hrow). exfalso.
        apply (cannot_grow_by_nothing _ _ _ Hrow).
      * intros (n & pr & Hc & _). discriminate Hc.
    + rewrite Hdb. auto.
Qed.

End RegistrarClaims.

Section RegistrarReplies.

Variable L : pylib.

(** C6 (as amended).  The failure reply names the lookup that failed,
    not the reason: whenever no name comes back (the request raised, the
    page has no title, or the title is empty) the reply is the
    could-not-parse text; whenever a name came back and no price does
    (the request raised, the page has no price, or the price text is not
    a number) the reply is the could-not-fetch-the-price text; the two
    texts differ, and there is no reply of its own for a transport
    error. *)
Theorem failure_reply_names_the_lookup E m st :
  let url := strip L (message_text m) in
  let st' := state_after (handle_link L E (with_message m)) st in
  (name_seen L (http E 0) url = None ->
   replies (trace st') = replies (trace st) ++ [parse_failure_message])
  /\ (forall name,
        name_seen L (http E 0) url = Some name ->
        price_seen L (http E 1) url = None ->
        replies (trace st') = replies (trace st) ++ [price_failure_message])
  /\ (forall e, http E 0 url = Raise e -> name_seen L (http E 0) url = None)
  /\ (forall html,
        http E 0 url = Ok html ->
        soup_find L html "span" "id" "productTitle" = Ok None ->
        name_seen L (http E 0) url = None)
  /\ (forall e, http E 1 url = Raise e -> price_seen L (http E 1) url = None)
  /\ (forall html,
        http E 1 url = Ok html ->
        soup_find L html "span" "class" "a-offscreen" = Ok None ->
        price_seen L (http E 1) url = None)
  /\ parse_failure_message <> price_failure_message.
Proof.
  intros url st'.
  pose proof (handle_link_cases L E m st) as H. cbv zeta in H.
  fold url in H. fold st' in H.
  destruct (name_trace_shape L (http E 0) url) as (nlogs & Hnt & _ & Hnr & _).
  destruct (price_trace_shape L (http E 1) url) as (plogs & Hpt & _ & Hpr & _).
  repeat split.
  - intros Hname. rewrite Hname in H. destruct H as [_ Ht].
    rewrite Ht, Hnt. read_trace. rewrite Hnr. reflexivity.
  - intros name Hname Hprice. rewrite Hname, Hprice in H. destruct H as [_ Ht].
    rewrite Ht, Hnt, Hpt. read_trace. rewrite Hnr, Hpr. reflexivity.
  - intros e He. unfold name_seen, name_value, value_of, get_product_name,
      try_except, bind, requests_get. rewrite He. reflexivity.
  - intros html Hh Hf. unfold name_seen, name_value, value_of, get_product_name,
      try_except, bind, requests_get, lift. rewrite Hh. simpl. rewrite Hf. reflexivity.
  - intros e He. unfold price_seen, value_of, check_price,
      try_except, bind, requests_get. rewrite He. reflexivity.
  - intros html Hh Hf. unfold price_seen, value_of, check_price,
      try_except, bind, requests_get, lift. rewrite Hh. simpl. rewrite Hf. reflexivity.
  - discriminate.
Qed.

(** C8.  A request for a link that the same user already tracks, when
    both lookups and the write succeed, appends one more row: the rows
    already there stay as they are, the new row has the same [user_id]
    and [product_url] as the old one, an [id] that no row had, and the
    name and the price just resolved (the price as a [REAL] column keeps
    it). *)
Theorem registrar_does_not_deduplicate E m st old name price :
  In old (products (db st)) ->
  user_id old = from_user_id m ->
  product_url old = strip L (message_text m) ->
  name_seen L (http E 0) (strip L (message_text m)) = Some name ->
  price_seen L (http E 1) (strip L (message_text m)) = Some price ->
  sqlite_write E 0 = Ok tt ->
  let st' := state_after (handle_link L E (with_message m)) st in
  let new := new_row L E m (db st) name price in
  products (db st') = products (db st) ++ [new]
  /\ user_id new = user_id old
  /\ product_url new = product_url old
  /\ product_name new = name
  /\ last_price new = sqlite_real price
  /\ (forall q, In q (products (db st)) -> prod_id new <> prod_id q)
  /\ (primary_key (db st) -> primary_key (db st')).
Proof.
  intros Hin Huser Hurl Hname Hprice Hwrite st' new.
  pose proof (handle_link_cases L E m st) as H. cbv zeta in H.
  rewrite Hname, Hprice in H. destruct H as (rest & _ & _ & _ & Hdb & _).
  rewrite Hwrite in Hdb. simpl in Hdb. fold st' in Hdb. fold new in Hdb.
  assert (Hfresh : forall q, In q (products (db st)) -> prod_id new <> prod_id q).
  { intros q Hq. pose proof (largest_rowid_bound (db st) q Hq).
    unfold new, new_row. simpl. lia. }
  rewrite Hdb. unfold insert_row. simpl.
  repeat split; auto.
  unfold primary_key. simpl. intros Hkey.
  rewrite map_app. simpl.
  apply NoDup_app; [exact Hkey | constructor; [intros []|constructor] | ].
  intros id Hid [Hnew|[]].
  apply in_map_iff in Hid. destruct Hid as (q & Hq & Hqin).
  apply (Hfresh q Hqin). rewrite Hq. exact Hnew.
Qed.

End RegistrarReplies.

(** * Prices in the table *)

Section StoredPrices.

Variable L : pylib.

(** C4.  Under the primary key, a run of the job leaves every row in
    its place and either exactly as it was or with a [last_price]
    strictly below the one it had; a registration only appends to the
    table.  So no operation raises a stored [last_price], and every write
    that changes one lowers it. *)
Theorem last_price_only_falls E st :
  primary_key (db st) ->
  (forall k p,
     nth_error (products (db st)) k = Some p ->
     exists p',
       nth_error (products (db (state_after (check_all_prices L E) st))) k = Some p'
       /\ prod_id p' = prod_id p
       /\ (p' = p \/ PrimFloat.ltb (last_price p') (last_price p) = true))
  /\ List.length (products (db (state_after (check_all_prices L E) st)))
     = List.length (products (db st))
  /\ (forall update,
        exists appended,
          products (db (state_after (handle_link L E update) st))
          = products (db st) ++ appended).
Proof.
  intros Hkey.
  destruct (cycle_settled L E st Hkey) as [Hset _].
  split; [|split].
  - intros k p Hk.
    destruct (settled_nth L E 0 _ _ Hset k p Hk) as (p' & Hn & Hp').
    exists p'. split; [exact Hn|]. simpl in Hp'.
    destruct Hp' as [->| ->]; [auto|].
    split; [apply after_check_id|].
    unfold after_check.
    destruct (drop_seen L E k p) as [price|] eqn:Hd; [|auto].
    right. destruct (drop_seen_below L E k p price Hd) as [_ Hlt].
    destruct (set_price_hit (sqlite_real price) (clock E k) p) as (-> & _).
    rewrite sqlite_real_ltb_l. exact Hlt.
  - rewrite <- (length_map prod_id), (settled_ids L E 0 _ _ Hset).
    apply length_map.
  - intros update.
    destruct (handle_link_db L E update st)
      as [Hdb|(m & name & price & _ & _ & _ & _ & Hdb)]; rewrite Hdb.
    + exists []. rewrite app_nil_r. reflexivity.
    + eexists. reflexivity.
Qed.

(** C10.  [get_product_name] and [check_price] return for every link
    and every answer of the network and the parser, and they return
    [None] when the request raises, when the parser raises, when the tag
    is not on the page and, for the price, when the text left after
    dropping the currency sign and the commas is not a number. *)
Theorem lookups_never_raise get url st :
  (exists found, value_of (get_product_name L get url) st = Ok found)
  /\ (exists found, value_of (check_price L get url) st = Ok found)
  /\ (forall e, get url = Raise e ->
        value_of (get_product_name L get url) st = Ok None
        /\ value_of (check_price L get url) st = Ok None)
  /\ (forall html, get url = Ok html ->
        (soup_find L html "span" "id" "productTitle" = Ok None ->
         value_of (get_product_name L get url) st = Ok None)
        /\ (forall e, soup_find L html "span" "id" "productTitle" = Raise e ->
            value_of (get_product_name L get url) st = Ok None)
        /\ (soup_find L html "span" "class" "a-offscreen" = Ok None ->
            value_of (check_price L get url) st = Ok None)
        /\ (forall e, soup_find L html "span" "class" "a-offscreen" = Raise e ->
            value_of (check_price L get url) st = Ok None)
        /\ (forall text e,
              soup_find L html "span" "class" "a-offscreen" = Ok (Some text) ->
              float_of_str L
                (replace (replace (strip L text) "₹" EmptyString) "," EmptyString)
              = Raise e ->
              value_of (check_price L get url) st = Ok None)).
Proof.
  split; [|split; [|split]].
  - eexists. unfold value_of. rewrite get_product_name_run. reflexivity.
  - eexists. unfold value_of. rewrite check_price_run. reflexivity.
  - intros e He.
    unfold value_of, get_product_name, check_price, try_except, bind, requests_get.
    rewrite He. auto.
  - intros html Hh.
    unfold value_of, get_product_name, check_price, try_except, bind,
      requests_get, lift.
    rewrite Hh. simpl. repeat split.
    + intros Hf. rewrite Hf. reflexivity.
    + intros e Hf. rewrite Hf. reflexivity.
    + intros Hf. rewrite Hf. reflexivity.
    + intros e Hf. rewrite Hf. reflexivity.
    + intros text e Hf Hn. rewrite Hf. simpl. rewrite Hn. reflexivity.
Qed.

End StoredPrices.

(** * The primary key is kept *)

Section PrimaryKey.

Variable L : pylib.

Lemma primary_key_init : primary_key init_db.
Proof. unfold primary_key. simpl. constructor. Qed.

Lemma insert_row_keeps_key d row :
  prod_id row = largest_rowid d + 1 ->
  primary_key d -> primary_key (insert_row d row).
Proof.
  unfold primary_key, insert_row. simpl. intros Hid Hkey.
  rewrite map_app. simpl.
  apply NoDup_app; [exact Hkey | constructor; [intros []|constructor] | ].
  intros id Hin [Hnew|[]].
  apply in_map_iff in Hin. destruct Hin as (q & Hq & Hqin).
  pose proof (largest_rowid_bound d q Hqin). lia.
Qed.

Lemma handle_link_keeps_key E update st :
  primary_key (db st) ->
  primary_key (db (state_after (handle_link L E update) st)).
Proof.
  intros Hkey.
  destruct (handle_link_db L E update st)
    as [Hdb|(m & name & price & _ & _ & _ & _ & Hdb)]; rewrite Hdb.
  - exact Hkey.
  - apply insert_row_keeps_key; [reflexivity|exact Hkey].
Qed.

Lemma check_all_prices_keeps_key E st :
  primary_key (db st) ->
  primary_key (db (state_after (check_all_prices L E) st)).
Proof.
  intros Hkey. destruct (cycle_settled L E st Hkey) as [Hset _].
  unfold primary_key. rewrite (settled_ids L E 0 _ _ Hset). exact Hkey.
Qed.

End PrimaryKey.

(** * The bot at work *)

Example replace_price_text :
  replace (replace "₹1,299.00" "₹" EmptyString) "," EmptyString = "1299.00"%string.
Proof. reflexivity. Qed.

(** The scenario of the specification: a link is registered at 100;
    the next runs see 90, then 95, then 80. *)
Example widget_scenario :
  let s0 := {| db := init_db; trace := [] |} in
  let s1 := state_after
              (handle_link Sample.lib (Sample.online "Widget;₹100.0") (with_message Sample.link)) s0 in
  let s2 := state_after (check_all_prices Sample.lib (Sample.online "Widget;₹90.0")) s1 in
  let s3 := state_after (check_all_prices Sample.lib (Sample.online "Widget;₹95.0")) s2 in
  let s4 := state_after (check_all_prices Sample.lib (Sample.online "Widget;₹80.0")) s3 in
  map product_name (products (db s1)) = ["Widget"%string]
  /\ map last_price (products (db s1)) = [100%float]
  /\ List.length (notifications (trace s2)) = 1%nat
  /\ map last_price (products (db s2)) = [90%float]
  /\ List.length (notifications (trace s3)) = 1%nat
  /\ map last_price (products (db s3)) = [90%float]
  /\ List.length (notifications (trace s4)) = 2%nat
  /\ map last_price (products (db s4)) = [80%float].
Proof. vm_compute. repeat split; reflexivity. Qed.

Ltac distinct_ids :=
  unfold primary_key; simpl;
  repeat (constructor; [simpl; intuition discriminate|]); constructor.

(** C1.  Two rows both show a drop, and the user of the first has
    blocked the bot.  [send_message] raises in the first iteration, the
    [except] around the whole loop logs it, and the run is over: the
    second row is never looked up, its user gets no message and its
    price stays as it was, although with everyone reachable the same run
    serves both rows. *)
Theorem delivery_failure_ends_the_run :
  drop_seen Sample.lib (Sample.blocked_by 42 Sample.cheaper) 1 Sample.gadget
    = Some 90%float
  /\ requests (trace (state_after
       (check_all_prices Sample.lib (Sample.blocked_by 42 Sample.cheaper))
       Sample.two_rows))
     = [product_url Sample.widget]
  /\ notifications (trace (state_after
       (check_all_prices Sample.lib (Sample.blocked_by 42 Sample.cheaper))
       Sample.two_rows))
     = []
  /\ db (state_after
       (check_all_prices Sample.lib (Sample.blocked_by 42 Sample.cheaper))
       Sample.two_rows)
     = db Sample.two_rows
  /\ requests (trace (state_after
       (check_all_prices Sample.lib (Sample.online Sample.cheaper))
       Sample.two_rows))
     = [product_url Sample.widget; product_url Sample.gadget]
  /\ map fst (notifications (trace (state_after
       (check_all_prices Sample.lib (Sample.online Sample.cheaper))
       Sample.two_rows)))
     = [42; 43].
Proof. vm_compute. repeat split; reflexivity. Qed.

(** C2, as first stated, fails: the lookup for the only row succeeds
    with 90, below the stored 100, and the message goes out, but SQLite
    refuses the write, so the table still holds 100.  (When it is
    Telegram that refuses, no message goes out and the table still holds
    100 as well.) *)
Lemma drop_not_stored_when_write_fails :
  reaches Sample.lib (Sample.read_only Sample.cheaper) Sample.one_row []
    (emit (SqlSelect true) Sample.one_row)
  /\ price_seen Sample.lib (http (Sample.read_only Sample.cheaper) 0)
       (product_url Sample.widget) = Some 90%float
  /\ PrimFloat.ltb 90 (last_price Sample.widget) = true
  /\ List.length (notifications (trace (state_after
       (check_all_prices Sample.lib (Sample.read_only Sample.cheaper))
       Sample.one_row))) = 1%nat
  /\ row_with_id (db (state_after
       (check_all_prices Sample.lib (Sample.read_only Sample.cheaper))
       Sample.one_row)) (prod_id Sample.widget) = Some Sample.widget
  /\ last_price Sample.widget = 100%float
  /\ notifications (trace (state_after
       (check_all_prices Sample.lib (Sample.blocked_by 42 Sample.cheaper))
       Sample.one_row)) = []
  /\ row_with_id (db (state_after
       (check_all_prices Sample.lib (Sample.blocked_by 42 Sample.cheaper))
       Sample.one_row)) (prod_id Sample.widget) = Some Sample.widget.
Proof. unfold reaches. vm_compute. repeat split; reflexivity. Qed.

(** C5, as first stated, fails twice.  Both lookups succeed and SQLite
    refuses the write: no row is stored.  And both lookups succeed on a
    page whose price text reads as a NaN: a row is stored, with [NULL]
    for its price. *)
Lemma registration_unwritten_or_priceless :
  name_seen Sample.lib (http (Sample.read_only Sample.cheaper) 0)
    (strip Sample.lib (message_text Sample.link)) = Some "Widget"%string
  /\ price_seen Sample.lib (http (Sample.read_only Sample.cheaper) 1)
       (strip Sample.lib (message_text Sample.link)) = Some 90%float
  /\ db (state_after
       (handle_link Sample.lib (Sample.read_only Sample.cheaper)
          (with_message Sample.link))
       Sample.one_row) = db Sample.one_row
  /\ name_seen Sample.lib (http (Sample.online More.not_a_number) 0)
       (strip Sample.lib (message_text Sample.link)) = Some "Widget"%string
  /\ price_seen Sample.lib (http (Sample.online More.not_a_number) 1)
       (strip Sample.lib (message_text Sample.link)) = Some PrimFloat.nan
  /\ map (fun p => is_null (last_price p))
       (products (db (state_after
          (handle_link Sample.lib (Sample.online More.not_a_number)
             (with_message Sample.link))
          Sample.one_row)))
     = [false; true].
Proof. vm_compute. repeat split; reflexivity. Qed.

(** C6, as first stated, fails: a request that times out and a page
    without a title get the same reply, and so do a price request that
    times out, a page without a price and a price that is not a
    number. *)
Lemma transport_error_reads_like_missing_tag :
  http Sample.offline 0 (strip Sample.lib (message_text Sample.link))
    = Raise (PyException "Read timed out.")
  /\ http (Sample.online Sample.untitled) 0 (strip Sample.lib (message_text Sample.link))
    = Ok Sample.untitled
  /\ replies (trace (state_after
       (handle_link Sample.lib Sample.offline (with_message Sample.link)) Sample.one_row))
     = replies (trace (state_after
       (handle_link Sample.lib (Sample.online Sample.untitled) (with_message Sample.link))
       Sample.one_row))
  /\ http (Sample.flaky Sample.cheaper) 1 (strip Sample.lib (message_text Sample.link))
    = Raise (PyException "Read timed out.")
  /\ replies (trace (state_after
       (handle_link Sample.lib (Sample.flaky Sample.cheaper) (with_message Sample.link))
       Sample.one_row))
     = replies (trace (state_after
       (handle_link Sample.lib (Sample.online Sample.unpriced) (with_message Sample.link))
       Sample.one_row))
  /\ replies (trace (state_after
       (handle_link Sample.lib (Sample.flaky Sample.cheaper) (with_message Sample.link))
       Sample.one_row))
     = replies (trace (state_after
       (handle_link Sample.lib (Sample.online Sample.garbled) (with_message Sample.link))
       Sample.one_row)).
Proof. vm_compute. repeat split; reflexivity. Qed.


(** ** The theorems at work on the sample world *)

Lemma drop_notifies_once_and_updates_witness :
  primary_key (db Sample.two_rows)
  /\ reaches Sample.lib (Sample.online Sample.cheaper) Sample.two_rows
       [Sample.widget] Sample.second_reached
  /\ row_with_id
       (db (state_after (check_all_prices Sample.lib (Sample.online Sample.cheaper))
              Sample.two_rows))
       (prod_id Sample.gadget)
     = Some (set_price 90 (clock (Sample.online Sample.cheaper) 1)
               (prod_id Sample.gadget) Sample.gadget).
Proof.
  assert (K : primary_key (db Sample.two_rows)) by distinct_ids.
  assert (R : reaches Sample.lib (Sample.online Sample.cheaper) Sample.two_rows
                [Sample.widget] Sample.second_reached)
    by (split; vm_compute; reflexivity).
  split; [exact K|]. split; [exact R|].
  apply (drop_notifies_once_and_updates Sample.lib (Sample.online Sample.cheaper)
           Sample.two_rows [Sample.widget] Sample.gadget [] Sample.second_reached
           90%float K eq_refl R);
    vm_compute; reflexivity.
Defined.

Lemma no_drop_leaves_row_alone_witness :
  primary_key (db Sample.two_rows)
  /\ nth_error
       (products (db (state_after
          (check_all_prices Sample.lib (Sample.online Sample.unchanged))
          Sample.two_rows))) 1
     = Some Sample.gadget.
Proof.
  assert (K : primary_key (db Sample.two_rows)) by distinct_ids.
  split; [exact K|].
  apply (no_drop_leaves_row_alone Sample.lib (Sample.online Sample.unchanged)
           Sample.two_rows [Sample.widget] Sample.gadget [] K eq_refl).
  right. exists 100%float. split; vm_compute; reflexivity.
Defined.


Lemma notification_precedes_update_witness :
  drop_seen Sample.lib (Sample.read_only Sample.cheaper) 0 Sample.widget
    = Some 90%float
  /\ value_of (check_one Sample.lib (Sample.read_only Sample.cheaper) 0 Sample.widget)
       (emit (SqlSelect true) Sample.one_row)
     = Raise Sample.disk_full.
Proof.
  assert (D : drop_seen Sample.lib (Sample.read_only Sample.cheaper) 0 Sample.widget
              = Some 90%float) by (vm_compute; reflexivity).
  split; [exact D|].
  apply (notification_precedes_update Sample.lib (Sample.read_only Sample.cheaper)
           0%nat Sample.widget (emit (SqlSelect true) Sample.one_row) 90%float D);
    vm_compute; reflexivity.
Defined.

Lemma last_price_only_falls_witness :
  primary_key (db Sample.two_rows)
  /\ List.length (products (db (state_after
       (check_all_prices Sample.lib (Sample.online Sample.cheaper))
       Sample.two_rows)))
     = List.length (products (db Sample.two_rows)).
Proof.
  assert (K : primary_key (db Sample.two_rows)) by distinct_ids.
  split; [exact K|].
  apply (last_price_only_falls Sample.lib (Sample.online Sample.cheaper)
           Sample.two_rows K).
Defined.

Lemma registrar_stores_iff_resolved_and_written_witness :
  name_seen Sample.lib (http (Sample.online Sample.cheaper) 0)
    (strip Sample.lib (message_text Sample.link)) = Some "Widget"%string
  /\ price_seen Sample.lib (http (Sample.online Sample.cheaper) 1)
       (strip Sample.lib (message_text Sample.link)) = Some 90%float
  /\ sqlite_write (Sample.online Sample.cheaper) 0 = Ok tt
  /\ products (db (state_after
       (handle_link Sample.lib (Sample.online Sample.cheaper)
          (with_message Sample.link))
       Sample.one_row))
     = products (db Sample.one_row)
       ++ [new_row Sample.lib (Sample.online Sample.cheaper) Sample.link
             (db Sample.one_row) "Widget" 90].
Proof.
  split; [vm_compute; reflexivity|]. split; [vm_compute; reflexivity|].
  split; [reflexivity|].
  destruct (registrar_stores_iff_resolved_and_written Sample.lib
              (Sample.online Sample.cheaper) Sample.link Sample.one_row)
    as (added & _ & _ & Hname & _).
  destruct (Hname "Widget"%string) as (_ & _ & Hprice); [vm_compute; reflexivity|].
  destruct (Hprice 90%float) as (_ & _ & _ & _ & _ & Hstored & _);
    [vm_compute; reflexivity|].
  apply Hstored. reflexivity.
Defined.

Lemma failure_reply_names_the_lookup_witness :
  name_seen Sample.lib (http Sample.offline 0)
    (strip Sample.lib (message_text Sample.link)) = None
  /\ replies (trace (state_after
       (handle_link Sample.lib Sample.offline (with_message Sample.link)) Sample.one_row))
     = replies (trace Sample.one_row) ++ [parse_failure_message].
Proof.
  split; [vm_compute; reflexivity|].
  apply (failure_reply_names_the_lookup Sample.lib Sample.offline Sample.link
           Sample.one_row).
  vm_compute; reflexivity.
Defined.

Lemma registrar_does_not_deduplicate_witness :
  In Sample.widget (products (db Sample.one_row))
  /\ products (db (state_after
       (handle_link Sample.lib (Sample.online Sample.cheaper) (with_message Sample.link))
       Sample.one_row))
     = products (db Sample.one_row)
       ++ [new_row Sample.lib (Sample.online Sample.cheaper) Sample.link
             (db Sample.one_row) "Widget"%string 90%float].
Proof.
  assert (I : In Sample.widget (products (db Sample.one_row)))
    by (left; reflexivity).
  split; [exact I|].
  apply (registrar_does_not_deduplicate Sample.lib (Sample.online Sample.cheaper)
           Sample.link Sample.one_row Sample.widget "Widget"%string 90%float I);
    vm_compute; reflexivity.
Defined.

Lemma lookups_never_raise_witness :
  Sample.timed_out 0%nat "https://www.amazon.in/dp/B01"%string
    = Raise (PyException "Read timed out.")
  /\ value_of (check_price Sample.lib (Sample.timed_out 0%nat)
                 "https://www.amazon.in/dp/B01") Sample.one_row
     = Ok None.
Proof.
  split; [reflexivity|].
  apply (lookups_never_raise Sample.lib (Sample.timed_out 0%nat)
           "https://www.amazon.in/dp/B01"%string Sample.one_row)
    with (e := PyException "Read timed out.").
  reflexivity.
Defined.

(** * Further properties of the code *)

(** ** Comparing prices *)

Lemma SFltb_trans (x y z : spec_float) :
  SFltb x y = true -> SFltb y z = true -> SFltb x z = true.
Proof.
  unfold SFltb.
  destruct x as [sx|sx| |sx mx ex], y as [sy|sy| |sy my ey],
    z as [sz|sz| |sz mz ez]; simpl;
    repeat match goal with b : bool |- _ => destruct b end; simpl;
    try discriminate; try reflexivity;
    fold (Pos.compare mx my); fold (Pos.compare my mz); fold (Pos.compare mx mz);
    destruct (Z.compare_spec ex ey), (Z.compare_spec ey ez),
      (Z.compare_spec ex ez); subst; try lia; simpl;
    try discriminate; try reflexivity;
    destruct (Pos.compare_spec mx my), (Pos.compare_spec my mz),
      (Pos.compare_spec mx mz); subst; simpl;
    try discriminate; try reflexivity; lia.
Qed.

Lemma ltb_trans (x y z : float) :
  PrimFloat.ltb x y = true -> PrimFloat.ltb y z = true -> PrimFloat.ltb x z = true.
Proof. rewrite !ltb_spec. apply SFltb_trans. Qed.

Lemma lowered_refl (a : float) : lowered a a.
Proof. left. reflexivity. Qed.

Lemma lowered_trans (a b c : float) : lowered a b -> lowered b c -> lowered a c.
Proof.
  intros [->|Hab] [->|Hbc]; unfold lowered; auto.
  right. apply (ltb_trans a b c Hab Hbc).
Qed.

Lemma same_item_refl (p : product) : same_item p p.
Proof. unfold same_item. repeat split; auto. apply lowered_refl. Qed.

Lemma same_item_trans (p q r : product) :
  same_item p q -> same_item q r -> same_item p r.
Proof.
  intros (A1 & A2 & A3 & A4 & A5) (B1 & B2 & B3 & B4 & B5).
  unfold same_item. rewrite B1, B2, B3, B4.
  repeat split; auto. apply (lowered_trans _ _ _ B5 A5).
Qed.

Lemma rows_kept_refl (d : database) : rows_kept d d.
Proof. intros k p Hk. exists p. split; [exact Hk|apply same_item_refl]. Qed.

Lemma rows_kept_trans (d1 d2 d3 : database) :
  rows_kept d1 d2 -> rows_kept d2 d3 -> rows_kept d1 d3.
Proof.
  intros H12 H23 k p Hk.
  destruct (H12 k p Hk) as (q & Hq & Hpq).
  destruct (H23 k q Hq) as (r & Hr & Hqr).
  exists r. split; [exact Hr|apply (same_item_trans p q r Hpq Hqr)].
Qed.

(** ** Dropping a character with [replace] *)

Lemma replace_from_char (c : ascii) (s : string) :
  replace_from (String c EmptyString) EmptyString 0 s = without_char c s.
Proof.
  induction s as [|a s IH]; simpl; [reflexivity|].
  destruct (ascii_dec c a) as [->|Hne].
  - rewrite Ascii.eqb_refl. simpl.
    replace (String.prefix EmptyString s) with true by (destruct s; reflexivity).
    exact IH.
  - destruct (Ascii.eqb_spec a c) as [->|_]; [contradiction Hne; reflexivity|].
    rewrite IH. reflexivity.
Qed.

Lemma occurs_without_char (c : ascii) (s : string) :
  occurs c (without_char c s) = false.
Proof.
  induction s as [|a s IH]; simpl; [reflexivity|].
  destruct (Ascii.eqb a c) eqn:Hac; [exact IH|].
  simpl. rewrite Hac, IH. reflexivity.
Qed.

Lemma without_char_absent (c : ascii) (s : string) :
  occurs c s = false -> without_char c s = s.
Proof.
  induction s as [|a s IH]; simpl; [reflexivity|].
  destruct (Ascii.eqb a c); simpl; [discriminate|].
  intros H. rewrite (IH H). reflexivity.
Qed.

(** X1.  [s.replace(c, "")] with a one-character [c], the way
    [check_price] drops the commas, removes every [c] wherever it stands,
    keeps every other character in order, and returns a text without
    [c] unchanged. *)
Theorem replace_drops_every_occurrence (c : ascii) (s : string) :
  replace s (String c EmptyString) EmptyString = without_char c s
  /\ occurs c (replace s (String c EmptyString) EmptyString) = false
  /\ (occurs c s = false -> replace s (String c EmptyString) EmptyString = s).
Proof.
  unfold replace. rewrite replace_from_char.
  split; [reflexivity|]. split.
  - apply occurs_without_char.
  - apply without_char_absent.
Qed.

(** ** The lookups, case by case *)

Lemma updates_app (a b : list event) :
  updates (a ++ b) = updates a ++ updates b.
Proof.
  induction a as [|ev a IH]; simpl; [reflexivity|].
  destruct ev as [ | | | | | ? ? ? [|] | ]; simpl; rewrite IH; reflexivity.
Qed.

Lemma logged_app (a b : list event) :
  logged (a ++ b) = logged a ++ logged b.
Proof.
  induction a as [|ev a IH]; simpl; [reflexivity|].
  destruct ev; simpl; rewrite IH; reflexivity.
Qed.

Ltac read_events :=
  repeat (rewrite ?notifications_app, ?replies_app, ?requests_app, ?inserts_app,
            ?updates_app, ?logged_app;
          simpl).

Section LookupCases.

Variable L : pylib.

(** X2.  Each lookup makes exactly one HTTP request and touches nothing
    else; it writes one line to the log when it returns [None] and none
    when it returns a value. *)
Theorem lookups_request_once_and_log_failures get url st :
  (exists lines,
     state_after (get_product_name L get url) st
     = {| db := db st; trace := trace st ++ HttpGet url :: lines |}
     /\ match name_value L get url with
        | Some _ => lines = []
        | None => exists message, lines = [LoggerError message]
        end)
  /\ (exists lines,
        state_after (check_price L get url) st
        = {| db := db st; trace := trace st ++ HttpGet url :: lines |}
        /\ match price_seen L get url with
           | Some _ => lines = []
           | None => exists message, lines = [LoggerError message]
           end).
Proof.
  split.
  - unfold state_after. rewrite get_product_name_run. simpl.
    unfold name_trace, name_value, value_of, state_after, get_product_name,
      try_except, bind, requests_get, lift, logger_error, ret, emit.
    simpl.
    destruct (get url) as [response|e]; simpl.
    + destruct (soup_find L response "span" "id" "productTitle") as [[text|]|e];
        simpl; eexists; split; try reflexivity; eexists; reflexivity.
    + eexists; split; try reflexivity; eexists; reflexivity.
  - unfold state_after. rewrite check_price_run. simpl.
    unfold price_trace, price_seen, value_of, state_after, check_price,
      try_except, bind, requests_get, lift, logger_error, ret, emit.
    simpl.
    destruct (get url) as [response|e]; simpl.
    + destruct (soup_find L response "span" "class" "a-offscreen") as [[text|]|e];
        simpl; try (eexists; split; try reflexivity; eexists; reflexivity).
      destruct (float_of_str L _) as [price|e]; simpl;
        eexists; split; try reflexivity; eexists; reflexivity.
    + eexists; split; try reflexivity; eexists; reflexivity.
Qed.

(** X3.  [check_price] returns a price exactly when the page came
    back, the price tag is on it and [float] accepts the tag's text once
    stripped and freed of the currency sign and the commas; the price is
    then that float.  [get_product_name] returns a name exactly when the
    page came back and the title tag is on it; the name is then the
    tag's text, stripped. *)
Theorem lookups_succeed_exactly_when get url :
  (forall price,
     price_seen L get url = Some price <->
     exists html text,
       get url = Ok html
       /\ soup_find L html "span" "class" "a-offscreen" = Ok (Some text)
       /\ float_of_str L
            (replace (replace (strip L text) "₹" EmptyString) "," EmptyString)
          = Ok price)
  /\ (forall name,
        name_value L get url = Some name <->
        exists html text,
          get url = Ok html
          /\ soup_find L html "span" "id" "productTitle" = Ok (Some text)
          /\ name = strip L text).
Proof.
  split.
  - intros price.
    unfold price_seen, value_of, check_price, try_except, bind, requests_get,
      lift, logger_error, ret.
    simpl. split.
    + destruct (get url) as [html|e]; simpl; [|discriminate].
      destruct (soup_find L html "span" "class" "a-offscreen") as [[text|]|e] eqn:Hf;
        simpl; try discriminate.
      destruct (float_of_str L _) as [v|e] eqn:Hv; simpl; [|discriminate].
      intros H. inversion H; subst. exists html, text. auto.
    + intros (html & text & -> & Hf & Hv). simpl. rewrite Hf. simpl.
      rewrite Hv. reflexivity.
  - intros name.
    unfold name_value, value_of, get_product_name, try_except, bind, requests_get,
      lift, logger_error, ret.
    simpl. split.
    + destruct (get url) as [html|e]; simpl; [|discriminate].
      destruct (soup_find L html "span" "id" "productTitle") as [[text|]|e] eqn:Hf;
        simpl; try discriminate.
      intros H. inversion H; subst. exists html, text. auto.
    + intros (html & text & -> & Hf & ->). simpl. rewrite Hf. reflexivity.
Qed.

Lemma price_trace_events get url :
  requests (price_trace L get url) = [url]
  /\ notifications (price_trace L get url) = []
  /\ updates (price_trace L get url) = [].
Proof.
  unfold price_trace, state_after, check_price,
    try_except, bind, requests_get, lift, logger_error, ret, emit.
  simpl.
  destruct (get url) as [response|e]; simpl; [|auto].
  destruct (soup_find L response "span" "class" "a-offscreen") as [[text|]|e];
    simpl; auto.
  destruct (float_of_str L _) as [price|e]; simpl; auto.
Qed.

End LookupCases.

(** ** What a run of the job asks, sends and writes *)

Section JobAccount.

Variable L : pylib.

Lemma alert_among_head E i p rows price :
  drop_seen L E i p = Some price ->
  alert_among L E i (p :: rows) (alert L p price).
Proof.
  intros Hd. exists 0%nat, p, price. rewrite Nat.add_0_r. auto.
Qed.

Lemma alert_among_tail E i p rows n :
  alert_among L E (S i) rows n -> alert_among L E i (p :: rows) n.
Proof.
  intros (k & q & price & Hk & Hd & Hn).
  exists (S k), q, price. rewrite Nat.add_succ_r. auto.
Qed.

(** The account of a loop: the rows it asked for, the notifications it
    sent and the writes it committed. *)
Lemma for_each_account E rows : forall i st,
  exists n added,
    trace (state_after (for_each L E i rows) st) = trace st ++ added
    /\ requests added = map product_url (firstn n rows)
    /\ (n <= List.length rows)%nat
    /\ Forall (alert_among L E i rows) (notifications added)
    /\ (List.length (notifications added) <= n)%nat
    /\ (List.length (notifications added) = List.length (updates added)
        \/ List.length (notifications added) = S (List.length (updates added)))
    /\ (value_of (for_each L E i rows) st = Ok tt ->
        n = List.length rows
        /\ List.length (notifications added) = List.length (updates added)).
Proof.
  induction rows as [|p rows IH]; intros i st.
  - exists 0%nat, []. unfold state_after, value_of. simpl.
    rewrite app_nil_r. repeat split; auto.
  - unfold state_after, value_of in *. rewrite for_each_cons.
    destruct (price_trace_events L (http E i) (product_url p)) as (Pr & Pn & Pu).
    destruct (drop_seen L E i p) as [price|] eqn:Hd.
    + destruct (telegram E i (user_id p)
        (drop_message L (product_name p) (last_price p) price (product_url p)))
        as [[]|e] eqn:Hs.
      * destruct (sqlite_write E i) as [[]|e] eqn:Hw.
        -- rewrite (check_one_done L E i p st price Hd Hs Hw).
           match goal with
           | |- context [for_each L E (S i) rows ?s] =>
               destruct (IH (S i) s) as (n & added & Ht & Hr & Hn & Ha & Hl & Hu & Hok)
           end.
           simpl in Ht.
           exists (S n), (price_trace L (http E i) (product_url p)
             ++ [SendMessage (user_id p)
                   (drop_message L (product_name p) (last_price p) price
                      (product_url p)) true;
                 SqlUpdate (prod_id p) price (clock E i) true] ++ added).
           rewrite Ht. read_events. rewrite Pr, Pn, Pu, Hr. simpl.
           split; [rewrite <- !app_assoc; reflexivity|].
           split; [reflexivity|]. split; [lia|].
           split.
           { constructor; [apply (alert_among_head E i p rows price Hd)|].
             eapply Forall_impl; [|exact Ha].
             intros a. apply alert_among_tail. }
           split; [lia|]. split; [lia|].
           intros Hv. destruct (Hok Hv). lia.
        -- rewrite (check_one_write_fails L E i p st price e Hd Hs Hw). simpl.
           exists 1%nat. eexists. split; [reflexivity|].
           read_events. rewrite Pr, Pn, Pu. simpl.
           split; [reflexivity|]. split; [lia|].
           split; [constructor;
                   [apply (alert_among_head E i p rows price Hd)|constructor]|].
           split; [lia|]. split; [right; reflexivity|discriminate].
      * rewrite (check_one_send_fails L E i p st price e Hd Hs). simpl.
        exists 1%nat. eexists. split; [reflexivity|].
        read_events. rewrite Pr, Pn, Pu. simpl.
        split; [reflexivity|]. split; [lia|].
        split; [constructor|].
        split; [lia|]. split; [left; reflexivity|discriminate].
    + destruct (null_compared L E i p) eqn:Hnull.
      * rewrite (check_one_type_error L E i p st Hnull). simpl.
        exists 1%nat. eexists. split; [reflexivity|].
        rewrite Pr, Pn, Pu. simpl.
        split; [reflexivity|]. split; [lia|].
        split; [constructor|].
        split; [lia|]. split; [left; reflexivity|discriminate].
      * rewrite (check_one_quiet L E i p st Hd Hnull).
        match goal with
        | |- context [for_each L E (S i) rows ?s] =>
            destruct (IH (S i) s) as (n & added & Ht & Hr & Hn & Ha & Hl & Hu & Hok)
        end.
        simpl in Ht.
        exists (S n), (price_trace L (http E i) (product_url p) ++ added).
        rewrite Ht. read_events. rewrite Pr, Pn, Pu, Hr. simpl.
        split; [rewrite <- !app_assoc; reflexivity|].
        split; [reflexivity|]. split; [lia|].
        split.
        { eapply Forall_impl; [|exact Ha]. intros a. apply alert_among_tail. }
        split; [lia|]. split; [exact Hu|].
        intros Hv. destruct (Hok Hv). lia.
Qed.

(** The account of a whole run. *)
Lemma job_account E st :
  exists n added,
    trace (state_after (check_all_prices L E) st) = trace st ++ added
    /\ requests added = map product_url (firstn n (products (db st)))
    /\ (n <= List.length (products (db st)))%nat
    /\ Forall (alert_among L E 0 (products (db st))) (notifications added)
    /\ (List.length (notifications added) <= n)%nat
    /\ (List.length (notifications added) = List.length (updates added)
        \/ List.length (notifications added) = S (List.length (updates added)))
    /\ (completes L E st ->
        n = List.length (products (db st))
        /\ List.length (notifications added) = List.length (updates added)).
Proof.
  unfold state_after. rewrite check_all_prices_run.
  destruct (sqlite_read E) as [[]|e] eqn:Hread.
  - destruct (for_each_account E (products (db st)) 0 (emit (SqlSelect true) st))
      as (n & added & Ht & Hr & Hn & Ha & Hl & Hu & Hok).
    unfold state_after, value_of in *.
    destruct (for_each L E 0 (products (db st)) (emit (SqlSelect true) st))
      as [[[]|e] st'] eqn:Hrun; simpl in *.
    + exists n, (SqlSelect true :: added).
      rewrite Ht, <- app_assoc. simpl.
      do 6 (split; [auto|]). intros _. apply Hok. reflexivity.
    + exists n, (SqlSelect true :: added
        ++ [LoggerError ("Error in check_all_prices: " ++ str e)%string]).
      rewrite Ht, <- !app_assoc. read_events. rewrite !app_nil_r.
      do 6 (split; [auto|]).
      intros Hc. apply (completes_loop L) in Hc. destruct Hc as [_ Hc].
      unfold value_of in Hc. rewrite Hrun in Hc. discriminate Hc.
  - exists 0%nat. eexists. simpl. rewrite <- app_assoc. simpl.
    split; [reflexivity|]. simpl.
    do 5 (split; [auto with arith|]).
    intros Hc. apply (completes_loop L) in Hc. destruct Hc as [Hc _].
    rewrite Hread in Hc. discriminate Hc.
Qed.

End JobAccount.

Section JobProperties.

Variable L : pylib.

(** X4.  A run of the job requests the rows' links in table order,
    each at most once, starting with the first row and without gaps; a
    run that raises nothing requests every row's link exactly once. *)
Theorem job_asks_rows_once_in_order E st :
  exists n,
    requests (trace (state_after (check_all_prices L E) st))
    = requests (trace st) ++ map product_url (firstn n (products (db st)))
    /\ (n <= List.length (products (db st)))%nat
    /\ (completes L E st ->
        requests (trace (state_after (check_all_prices L E) st))
        = requests (trace st) ++ map product_url (products (db st))).
Proof.
  destruct (job_account L E st) as (n & added & Ht & Hr & Hn & _ & _ & _ & Hok).
  exists n. rewrite Ht, requests_app, Hr.
  split; [reflexivity|]. split; [exact Hn|].
  intros Hc. destruct (Hok Hc) as [-> _]. rewrite firstn_all. reflexivity.
Qed.

(** X5.  Every notification a run sends is the drop message of a row
    of the table, addressed to that row's [user_id], for a price the
    lookup returned and that is strictly below the row's stored
    [last_price]; a run sends at most one notification per row. *)
Theorem job_alerts_only_for_drops E st :
  exists sent,
    notifications (trace (state_after (check_all_prices L E) st))
    = notifications (trace st) ++ sent
    /\ (List.length sent <= List.length (products (db st)))%nat
    /\ (forall chat_id text,
          In (chat_id, text) sent ->
          exists k p price,
            nth_error (products (db st)) k = Some p
            /\ price_seen L (http E k) (product_url p) = Some price
            /\ PrimFloat.ltb price (last_price p) = true
            /\ chat_id = user_id p
            /\ text = drop_message L (product_name p) (last_price p) price
                        (product_url p)).
Proof.
  destruct (job_account L E st) as (n & added & Ht & _ & Hn & Ha & Hl & _).
  exists (notifications added). rewrite Ht, notifications_app.
  split; [reflexivity|]. split; [lia|].
  intros chat_id text Hin.
  rewrite Forall_forall in Ha.
  destruct (Ha _ Hin) as (k & p & price & Hk & Hd & Heq).
  destruct (drop_seen_below L E k p price Hd) as [Hseen Hlt].
  unfold alert in Heq. inversion Heq; subst.
  exists k, p, price. auto.
Qed.

(** X6.  A run commits an [UPDATE] only after the notification for it
    went out: at the end of a run the notifications sent are as many as
    the committed updates, or one more (the run ended on a write that
    raised); they are as many when the run raised nothing. *)
Theorem job_commits_only_after_alert E st :
  exists added,
    trace (state_after (check_all_prices L E) st) = trace st ++ added
    /\ (List.length (notifications added) = List.length (updates added)
        \/ List.length (notifications added) = S (List.length (updates added)))
    /\ (completes L E st ->
        List.length (notifications added) = List.length (updates added)).
Proof.
  destruct (job_account L E st) as (n & added & Ht & _ & _ & _ & _ & Hu & Hok).
  exists added. split; [exact Ht|]. split; [exact Hu|].
  intros Hc. apply (Hok Hc).
Qed.

(** X7.  [check_all_prices] never raises.  A run that did not go
    through ends with the log line of the exception that stopped it; and
    when it is the query that raises, the run does nothing else: no
    request, no notification, no write. *)
Theorem job_never_raises E st :
  value_of (check_all_prices L E) st = Ok tt
  /\ (completes L E st
      \/ exists e earlier,
           trace (state_after (check_all_prices L E) st)
           = earlier ++ [LoggerError ("Error in check_all_prices: " ++ str e)%string])
  /\ (forall e,
        sqlite_read E = Raise e ->
        db (state_after (check_all_prices L E) st) = db st
        /\ trace (state_after (check_all_prices L E) st)
           = trace st ++ [SqlSelect false;
                          LoggerError ("Error in check_all_prices: " ++ str e)%string]).
Proof.
  split; [apply check_all_prices_returns|]. split.
  - unfold state_after, completes, value_of, bind, sql_select.
    rewrite check_all_prices_run.
    destruct (sqlite_read E) as [[]|e].
    + destruct (for_each L E 0 (products (db st)) (emit (SqlSelect true) st))
        as [[[]|e] st']; simpl.
      * left. reflexivity.
      * right. exists e, (trace st'). reflexivity.
    + right. exists e, (trace st ++ [SqlSelect false]). reflexivity.
  - intros e He. unfold state_after. rewrite check_all_prices_run, He. simpl.
    rewrite <- app_assoc. auto.
Qed.

(** X8.  When the query returns and, for every row, the lookup fails
    or returns a price that is not below the stored one, the stored one
    not being [NULL], the run goes through all rows, requests each link
    once, sends nothing, writes nothing and leaves the table as it
    is. *)
Theorem run_without_drop_changes_nothing E st :
  sqlite_read E = Ok tt ->
  (forall k p,
     nth_error (products (db st)) k = Some p ->
     price_seen L (http E k) (product_url p) = None
     \/ exists price,
          price_seen L (http E k) (product_url p) = Some price
          /\ is_null (last_price p) = false
          /\ PrimFloat.ltb price (last_price p) = false) ->
  completes L E st
  /\ db (state_after (check_all_prices L E) st) = db st
  /\ notifications (trace (state_after (check_all_prices L E) st))
     = notifications (trace st)
  /\ updates (trace (state_after (check_all_prices L E) st)) = updates (trace st)
  /\ requests (trace (state_after (check_all_prices L E) st))
     = requests (trace st) ++ map product_url (products (db st)).
Proof.
  intros Hread Hquiet.
  destruct (for_each_quiet L E (products (db st)) 0 (emit (SqlSelect true) st))
    as (st' & Hrun & Hdb & Hn).
  { intros k p Hk. simpl. unfold drop_seen, null_compared.
    destruct (Hquiet k p Hk) as [->|(price & -> & Hnull & Hlt)]; [auto|].
    rewrite Hnull, Hlt. auto. }
  assert (Hc : completes L E st).
  { unfold completes, value_of, bind, sql_select. rewrite Hread, Hrun. reflexivity. }
  destruct (job_account L E st) as (n & added & Ht & Hr & _ & _ & _ & _ & Hok).
  destruct (Hok Hc) as [Hall Heq].
  assert (Hfinal : state_after (check_all_prices L E) st = st').
  { unfold state_after. rewrite check_all_prices_run, Hread, Hrun. reflexivity. }
  assert (Hnone : notifications added = []).
  { rewrite Hfinal in Ht. rewrite Ht, notifications_app in Hn.
    rewrite notifications_emit_select in Hn.
    rewrite <- (app_nil_r (notifications (trace st))) in Hn at 2.
    apply app_inv_head in Hn. exact Hn. }
  split; [exact Hc|]. split; [rewrite Hfinal; exact Hdb|].
  rewrite Ht. read_events. rewrite Hnone, Hr, Hall, firstn_all.
  rewrite Hnone in Heq. simpl in Heq.
  destruct (updates added); [|discriminate Heq].
  rewrite !app_nil_r. auto.
Qed.

(** X9.  Under the primary key a run changes nothing of a row but
    [last_price] and [last_checked], and these two only together: every
    row keeps its place, [id], [user_id], [product_url] and
    [product_name], and is either exactly as it was or holds the price
    the lookup returned for it, which was below the stored one (the
    price as a [REAL] column keeps it), and the time of that iteration.
    The [AUTOINCREMENT] counter is left alone. *)
Theorem job_changes_price_and_time_together E st :
  primary_key (db st) ->
  (forall k p,
     nth_error (products (db st)) k = Some p ->
     exists p',
       nth_error (products (db (state_after (check_all_prices L E) st))) k = Some p'
       /\ prod_id p' = prod_id p
       /\ user_id p' = user_id p
       /\ product_url p' = product_url p
       /\ product_name p' = product_name p
       /\ (p' = p
           \/ exists price,
                price_seen L (http E k) (product_url p) = Some price
                /\ PrimFloat.ltb price (last_price p) = true
                /\ last_price p' = sqlite_real price
                /\ last_checked p' = clock E k))
  /\ sqlite_sequence (db (state_after (check_all_prices L E) st))
     = sqlite_sequence (db st).
Proof.
  intros Hkey. destruct (cycle_settled L E st Hkey) as [Hset Hseq].
  split; [|exact Hseq].
  intros k p Hk.
  destruct (settled_nth L E 0 _ _ Hset k p Hk) as (p' & Hn & Hp').
  exists p'. split; [exact Hn|]. simpl in Hp'.
  destruct Hp' as [->| ->]; [repeat split; auto|].
  unfold after_check.
  destruct (drop_seen L E k p) as [price|] eqn:Hd; [|repeat split; auto].
  destruct (drop_seen_below L E k p price Hd) as [Hseen Hlt].
  destruct (set_price_hit (sqlite_real price) (clock E k) p)
    as (H1 & H2 & H3 & H4 & H5).
  rewrite set_price_id, H3, H4, H5.
  do 4 (split; [reflexivity|]).
  right. exists price. auto.
Qed.

(** X18.  A row whose stored price is [NULL] stops the run: when the
    job reaches it and its lookup returns a price, the comparison
    raises [TypeError], which is logged, and the run is over.  Nothing
    is sent or written for that row, and the rows after it are not
    looked at. *)
Theorem null_price_stops_the_run E st before p after st1 price :
  products (db st) = before ++ p :: after ->
  reaches L E st before st1 ->
  is_null (last_price p) = true ->
  price_seen L (http E (List.length before)) (product_url p) = Some price ->
  state_after (check_all_prices L E) st
  = {| db := db st1;
       trace := trace st1
         ++ price_trace L (http E (List.length before)) (product_url p)
         ++ [LoggerError ("Error in check_all_prices: " ++ str type_error)%string] |}.
Proof.
  intros Hdb Hreach Hnull Hseen.
  assert (Hn : null_compared L E (List.length before) p = true)
    by (unfold null_compared; rewrite Hseen; exact Hnull).
  pose proof (check_one_type_error L E (List.length before) p st1 Hn) as Hone.
  rewrite (raise_ends_the_run L E st before p after st1 type_error Hdb Hreach)
    by (unfold value_of; rewrite Hone; reflexivity).
  unfold state_after. rewrite Hone. unfold emit. simpl.
  rewrite <- app_assoc. reflexivity.
Qed.

End JobProperties.

(** ** The registrar, path by path *)

Lemma added_message_contains L name price :
  contains (added_message L name price) name
  /\ contains (added_message L name price) (format_float L price).
Proof.
  unfold contains, added_message. split.
  - eexists. eexists. rewrite <- string_app_assoc. reflexivity.
  - eexists. eexists. rewrite <- 4 string_app_assoc. reflexivity.
Qed.

Lemma find_fresh_row rows row :
  (forall q, In q rows -> prod_id row <> prod_id q) ->
  find (fun p => prod_id p =? prod_id row) (rows ++ [row]) = Some row.
Proof.
  induction rows as [|q rows IH]; simpl; intros Hfresh.
  - rewrite Z.eqb_refl. reflexivity.
  - destruct (Z.eqb_spec (prod_id q) (prod_id row)) as [Heq|_].
    + exfalso. apply (Hfresh q); auto.
    + apply IH. intros r Hr. apply Hfresh. right. exact Hr.
Qed.

Section RegistrarPaths.

Variable L : pylib.

(** X10.  When both lookups, the write and the reply succeed,
    [handle_link] returns, has stored the row, and has told the user so
    in one reply that shows the name and the price as resolved. *)
Theorem registrar_confirms_name_and_price E m st name price :
  name_seen L (http E 0) (strip L (message_text m)) = Some name ->
  price_seen L (http E 1) (strip L (message_text m)) = Some price ->
  sqlite_write E 0 = Ok tt ->
  reply E 0 (added_message L name price) = Ok tt ->
  let url := strip L (message_text m) in
  let row := new_row L E m (db st) name price in
  handle_link L E (with_message m) st =
    (Ok tt,
     {| db := insert_row (db st) row;
        trace := trace st ++ name_trace L (http E 0) url
          ++ price_trace L (http E 1) url
          ++ [SqlInsert row true; ReplyText (added_message L name price) true] |})
  /\ products (insert_row (db st) row) = products (db st) ++ [row]
  /\ contains (added_message L name price) name
  /\ contains (added_message L name price) (format_float L price).
Proof.
  intros Hname Hprice Hwrite Hreply url row.
  split; [|split; [reflexivity|apply added_message_contains]].
  rewrite handle_link_run. cbv zeta. rewrite Hname, Hprice.
  unfold try_except, bind, sql_insert, reply_text, logger_error, emit. simpl.
  rewrite Hwrite. simpl. rewrite Hreply. simpl.
  rewrite <- !app_assoc. reflexivity.
Qed.

(** X11.  When both lookups succeed and the [INSERT] or its commit
    raises, the table is left as it was, the exception is logged, and
    the user gets the could-not-add reply and nothing else;
    [handle_link] raises only if that reply does. *)
Theorem registrar_reports_storage_failure E m st name price e :
  name_seen L (http E 0) (strip L (message_text m)) = Some name ->
  price_seen L (http E 1) (strip L (message_text m)) = Some price ->
  sqlite_write E 0 = Raise e ->
  let url := strip L (message_text m) in
  let row := new_row L E m (db st) name price in
  handle_link L E (with_message m) st =
    (reply E 1 insert_error_message,
     {| db := db st;
        trace := trace st ++ name_trace L (http E 0) url
          ++ price_trace L (http E 1) url
          ++ [SqlInsert row false;
              LoggerError ("Error inserting product into database: " ++ str e)%string;
              ReplyText insert_error_message
                (succeeded (reply E 1 insert_error_message))] |}).
Proof.
  intros Hname Hprice Hwrite url row.
  rewrite handle_link_run. cbv zeta. rewrite Hname, Hprice.
  unfold try_except, bind, sql_insert, reply_text, logger_error, emit. simpl.
  rewrite Hwrite. simpl.
  rewrite <- !app_assoc. reflexivity.
Qed.

(** X12.  The confirmation is sent inside the same [try] as the
    [INSERT].  So when the row has been committed and the confirmation
    then raises, the row stays in the table, yet the exception is logged
    as an insertion error and the user is sent the could-not-add
    reply. *)
Theorem registrar_reply_failure_after_commit E m st name price e :
  name_seen L (http E 0) (strip L (message_text m)) = Some name ->
  price_seen L (http E 1) (strip L (message_text m)) = Some price ->
  sqlite_write E 0 = Ok tt ->
  reply E 0 (added_message L name price) = Raise e ->
  let url := strip L (message_text m) in
  let row := new_row L E m (db st) name price in
  handle_link L E (with_message m) st =
    (reply E 1 insert_error_message,
     {| db := insert_row (db st) row;
        trace := trace st ++ name_trace L (http E 0) url
          ++ price_trace L (http E 1) url
          ++ [SqlInsert row true;
              ReplyText (added_message L name price) false;
              LoggerError ("Error inserting product into database: " ++ str e)%string;
              ReplyText insert_error_message
                (succeeded (reply E 1 insert_error_message))] |})
  /\ products (insert_row (db st) row) = products (db st) ++ [row].
Proof.
  intros Hname Hprice Hwrite Hreply url row.
  split; [|reflexivity].
  rewrite handle_link_run. cbv zeta. rewrite Hname, Hprice.
  unfold try_except, bind, sql_insert, reply_text, logger_error, emit. simpl.
  rewrite Hwrite. simpl. rewrite Hreply. simpl.
  rewrite <- !app_assoc. reflexivity.
Qed.

Lemma handle_link_answers_once E m st :
  (forall i text, reply E i text = Ok tt) ->
  value_of (handle_link L E (with_message m)) st = Ok tt
  /\ exists text,
       replies (trace (state_after (handle_link L E (with_message m)) st))
       = replies (trace st) ++ [text]
       /\ (text = parse_failure_message
           \/ text = price_failure_message
           \/ text = insert_error_message
           \/ exists name price, text = added_message L name price).
Proof.
  intros Hreply. unfold value_of, state_after.
  rewrite handle_link_run. cbv zeta.
  destruct (name_trace_shape L (http E 0) (strip L (message_text m)))
    as (nlogs & Hnt & _ & Hnr & _).
  destruct (price_trace_shape L (http E 1) (strip L (message_text m)))
    as (plogs & Hpt & _ & Hpr & _).
  destruct (name_seen L (http E 0) (strip L (message_text m))) as [name|].
  - destruct (price_seen L (http E 1) (strip L (message_text m))) as [price|].
    + unfold try_except, bind, sql_insert, reply_text, logger_error, emit. simpl.
      destruct (sqlite_write E 0) as [[]|e]; simpl.
      * rewrite (Hreply 0%nat). simpl. split; [reflexivity|].
        exists (added_message L name price).
        rewrite Hnt, Hpt. read_events. rewrite Hnr, Hpr. simpl. rewrite ?app_nil_r.
        split; [reflexivity|]. right. right. right. exists name, price. reflexivity.
      * rewrite (Hreply 1%nat). simpl. split; [reflexivity|].
        exists insert_error_message.
        rewrite Hnt, Hpt. read_events. rewrite Hnr, Hpr. simpl. rewrite ?app_nil_r. auto.
    + unfold reply_text, emit. simpl. rewrite (Hreply 0%nat). simpl.
      split; [reflexivity|]. exists price_failure_message.
      rewrite Hnt, Hpt. read_events. rewrite Hnr, Hpr. simpl. rewrite ?app_nil_r. auto.
  - unfold reply_text, emit. simpl. rewrite (Hreply 0%nat). simpl.
    split; [reflexivity|]. exists parse_failure_message.
    rewrite Hnt. read_events. rewrite Hnr. simpl. rewrite ?app_nil_r. auto.
Qed.

(** X13.  For an update that carries a message: as long as Telegram
    accepts the replies, [handle_link] never raises, whatever the
    network, the parser and SQLite do, and the user gets exactly one
    reply, the confirmation or one of the three failure texts.  For an
    update without a message (an edited message, a channel post) the
    handler raises [AttributeError] at its first line: no request, no
    reply, no write. *)
Theorem registrar_answers_once E update st :
  (message update = None ->
   handle_link L E update st = (Raise (attribute_error "from_user"), st))
  /\ (forall m,
        message update = Some m ->
        (forall i text, reply E i text = Ok tt) ->
        value_of (handle_link L E update) st = Ok tt
        /\ exists text,
             replies (trace (state_after (handle_link L E update) st))
             = replies (trace st) ++ [text]
             /\ (text = parse_failure_message
                 \/ text = price_failure_message
                 \/ text = insert_error_message
                 \/ exists name price, text = added_message L name price)).
Proof.
  split.
  - apply handle_link_no_message.
  - intros m Hm Hreply. destruct update as [msg]. simpl in Hm. subst msg.
    apply (handle_link_answers_once E m st Hreply).
Qed.

(** X14.  A row that was registered is what the next query returns
    last, after the rows that were there, and looking its [id] up finds
    it.  It carries the name as resolved.  Its price reads back as the
    price that was resolved, with two exceptions: a zero reads back as
    [0.0], and a NaN is stored as [NULL] and reads back as [None]. *)
Theorem registered_row_is_selected E E' m st name price :
  name_seen L (http E 0) (strip L (message_text m)) = Some name ->
  price_seen L (http E 1) (strip L (message_text m)) = Some price ->
  sqlite_write E 0 = Ok tt ->
  sqlite_read E' = Ok tt ->
  let st' := state_after (handle_link L E (with_message m)) st in
  let row := new_row L E m (db st) name price in
  value_of (sql_select E') st' = Ok (products (db st) ++ [row])
  /\ row_with_id (db st') (prod_id row) = Some row
  /\ product_name row = name
  /\ is_null (last_price row) = PrimFloat.is_nan price
  /\ (PrimFloat.is_zero price = true -> last_price row = 0%float)
  /\ (PrimFloat.is_zero price = false -> last_price row = price).
Proof.
  intros Hname Hprice Hwrite Hread st' row.
  pose proof (handle_link_cases L E m st) as H. cbv zeta in H.
  rewrite Hname, Hprice in H. destruct H as (rest & _ & _ & _ & Hdb & _).
  rewrite Hwrite in Hdb. simpl in Hdb. fold st' in Hdb. fold row in Hdb.
  unfold value_of, sql_select, row_with_id. rewrite Hread, Hdb. simpl.
  split; [reflexivity|]. split.
  - apply (find_fresh_row (products (db st)) row). intros q Hq.
    pose proof (largest_rowid_bound (db st) q Hq).
    unfold row, new_row. simpl. lia.
  - split; [reflexivity|]. split; [apply sqlite_real_null|].
    unfold sqlite_real. split; intros Hz; rewrite Hz; reflexivity.
Qed.

(** X15.  The price at registration is the baseline: for a row as
    [handle_link] inserts it, an iteration of the job that sees the same
    price again completes without a message and without a write,
    provided that price is a number.  When it is a NaN the row holds
    [NULL], and the iteration raises [TypeError] at the comparison,
    after the request and before anything is sent or written. *)
Theorem registered_price_is_the_baseline E m d name price E2 i st :
  price_seen L (http E2 i) (strip L (message_text m)) = Some price ->
  let row := new_row L E m d name price in
  (PrimFloat.is_nan price = false ->
   value_of (check_one L E2 i row) st = Ok tt
   /\ db (state_after (check_one L E2 i row) st) = db st
   /\ notifications (trace (state_after (check_one L E2 i row) st))
      = notifications (trace st)
   /\ updates (trace (state_after (check_one L E2 i row) st)) = updates (trace st))
  /\ (PrimFloat.is_nan price = true ->
      check_one L E2 i row st
      = (Raise type_error,
         {| db := db st;
            trace := trace st ++ price_trace L (http E2 i) (product_url row) |})).
Proof.
  intros Hseen row.
  assert (Hnull : null_compared L E2 i row = PrimFloat.is_nan price).
  { unfold null_compared, row, new_row. simpl. rewrite Hseen.
    apply sqlite_real_null. }
  split; intros Hnan.
  - assert (Hd : drop_seen L E2 i row = None).
    { unfold drop_seen, row, new_row. simpl.
      rewrite Hseen, sqlite_real_ltb_r, ltb_irrefl. reflexivity. }
    rewrite Hnan in Hnull.
    unfold value_of, state_after. rewrite (check_one_quiet L E2 i row st Hd Hnull).
    simpl.
    destruct (price_trace_events L (http E2 i) (strip L (message_text m)))
      as (_ & Pn & Pu).
    read_events. rewrite Pn, Pu, !app_nil_r. auto.
  - rewrite Hnan in Hnull. apply (check_one_type_error L E2 i row st Hnull).
Qed.

End RegistrarPaths.

(** ** Calls one after another *)

Section Calls.

Variable L : pylib.

Lemma handle_link_appends E update st :
  exists appended,
    products (db (state_after (handle_link L E update) st))
    = products (db st) ++ appended.
Proof.
  destruct (handle_link_db L E update st)
    as [Hdb|(m & name & price & _ & _ & _ & _ & Hdb)]; rewrite Hdb.
  - exists []. rewrite app_nil_r. reflexivity.
  - eexists. reflexivity.
Qed.

(** A command replies or raises; it leaves the table alone. *)
Lemma command_keeps_table E update st :
  db (state_after (start E update) st) = db st
  /\ db (state_after (help_command E update) st) = db st
  /\ db (state_after (about E update) st) = db st.
Proof.
  unfold state_after, start, help_command, about.
  destruct (message update); auto.
Qed.

Lemma handle_link_keeps_rows E update st :
  rows_kept (db st) (db (state_after (handle_link L E update) st)).
Proof.
  destruct (handle_link_appends E update st) as (appended & Happ).
  intros k p Hk. exists p. split; [|apply same_item_refl].
  rewrite Happ. rewrite nth_error_app1; [exact Hk|].
  apply nth_error_Some. rewrite Hk. discriminate.
Qed.

Lemma after_check_same_item E i p : same_item p (after_check L E i p).
Proof.
  unfold after_check.
  destruct (drop_seen L E i p) as [price|] eqn:Hd; [|apply same_item_refl].
  destruct (drop_seen_below L E i p price Hd) as [_ Hlt].
  destruct (set_price_hit (sqlite_real price) (clock E i) p)
    as (H1 & _ & H3 & H4 & H5).
  unfold same_item. rewrite set_price_id, H1, H3, H4, H5.
  repeat split; auto. right. rewrite sqlite_real_ltb_l. exact Hlt.
Qed.

Lemma check_all_prices_keeps_rows E st :
  primary_key (db st) ->
  rows_kept (db st) (db (state_after (check_all_prices L E) st)).
Proof.
  intros Hkey. destruct (cycle_settled L E st Hkey) as [Hset _].
  intros k p Hk.
  destruct (settled_nth L E 0 _ _ Hset k p Hk) as (p' & Hn & Hp').
  exists p'. split; [exact Hn|].
  destruct Hp' as [->| ->]; [apply same_item_refl|apply after_check_same_item].
Qed.

Lemma run_call_keeps c E st :
  primary_key (db st) ->
  primary_key (db (state_after (run_call L c E) st))
  /\ rows_kept (db st) (db (state_after (run_call L c E) st)).
Proof.
  intros Hkey. destruct c as [u|u|u|u|]; simpl.
  - destruct (command_keeps_table E u st) as (-> & _ & _).
    split; [exact Hkey|apply rows_kept_refl].
  - destruct (command_keeps_table E u st) as (_ & -> & _).
    split; [exact Hkey|apply rows_kept_refl].
  - destruct (command_keeps_table E u st) as (_ & _ & ->).
    split; [exact Hkey|apply rows_kept_refl].
  - split; [apply (handle_link_keeps_key L E u st Hkey)
           |apply handle_link_keeps_rows].
  - split; [apply (check_all_prices_keeps_key L E st Hkey)
           |apply (check_all_prices_keeps_rows E st Hkey)].
Qed.

Lemma run_calls_keep calls : forall st,
  primary_key (db st) ->
  primary_key (db (run_calls L calls st))
  /\ rows_kept (db st) (db (run_calls L calls st)).
Proof.
  induction calls as [|[c E] calls IH]; intros st Hkey; simpl.
  - split; [exact Hkey|apply rows_kept_refl].
  - destruct (run_call_keeps c E st Hkey) as [Hkey1 Hkept1].
    destruct (IH _ Hkey1) as [Hkey2 Hkept2].
    split; [exact Hkey2|apply (rows_kept_trans _ _ _ Hkept1 Hkept2)].
Qed.

(** X16.  Starting from the table as [init_db] leaves it (freshly
    created, or found on disk with its primary key), any sequence of
    commands, registrations and runs of the job, whatever fails in
    them, leaves a table in which no two rows share an [id]. *)
Theorem calls_keep_primary_key calls file earlier :
  (forall table, file = Some table -> primary_key table) ->
  primary_key
    (db (run_calls L calls
           {| db := create_table_if_not_exists file; trace := earlier |})).
Proof.
  intros Hfile. apply run_calls_keep. simpl.
  destruct file as [table|]; simpl; [apply Hfile; reflexivity|apply primary_key_init].
Qed.

(** X17.  No sequence of commands, registrations and runs of the job
    removes or moves a row, changes its [id], [user_id], [product_url]
    or [product_name], or leaves it with a [last_price] above the one it
    had: the price is the same or strictly lower. *)
Theorem calls_never_drop_or_raise_a_row calls st :
  primary_key (db st) ->
  forall k p,
    nth_error (products (db st)) k = Some p ->
    exists p',
      nth_error (products (db (run_calls L calls st))) k = Some p'
      /\ prod_id p' = prod_id p
      /\ user_id p' = user_id p
      /\ product_url p' = product_url p
      /\ product_name p' = product_name p
      /\ (last_price p' = last_price p
          \/ PrimFloat.ltb (last_price p') (last_price p) = true).
Proof.
  intros Hkey k p Hk.
  destruct (run_calls_keep calls st Hkey) as [_ Hkept].
  destruct (Hkept k p Hk) as (p' & Hn & H1 & H2 & H3 & H4 & H5).
  exists p'. repeat split; auto.
Qed.

End Calls.

(** ** The further properties at work *)

Lemma replace_drops_every_occurrence_witness :
  occurs ","%char "1299.00" = false
  /\ replace "1299.00" "," EmptyString = "1299.00"%string.
Proof.
  split; [reflexivity|].
  apply (replace_drops_every_occurrence ","%char "1299.00"%string).
  reflexivity.
Defined.

Lemma lookups_succeed_exactly_when_witness :
  Sample.serves Sample.cheaper 0%nat "https://www.amazon.in/dp/B01"%string
    = Ok Sample.cheaper
  /\ price_seen Sample.lib (Sample.serves Sample.cheaper 0%nat)
       "https://www.amazon.in/dp/B01" = Some 90%float.
Proof.
  split; [reflexivity|].
  apply (lookups_succeed_exactly_when Sample.lib (Sample.serves Sample.cheaper 0%nat)
           "https://www.amazon.in/dp/B01"%string).
  exists Sample.cheaper, "₹90.0"%string.
  split; [reflexivity|]. split; vm_compute; reflexivity.
Defined.

Lemma job_asks_rows_once_in_order_witness :
  completes Sample.lib (Sample.online Sample.cheaper) Sample.two_rows
  /\ requests (trace (state_after
       (check_all_prices Sample.lib (Sample.online Sample.cheaper))
       Sample.two_rows))
     = requests (trace Sample.two_rows)
       ++ map product_url (products (db Sample.two_rows)).
Proof.
  assert (C : completes Sample.lib (Sample.online Sample.cheaper) Sample.two_rows)
    by (vm_compute; reflexivity).
  split; [exact C|].
  destruct (job_asks_rows_once_in_order Sample.lib (Sample.online Sample.cheaper)
              Sample.two_rows) as (n & _ & _ & Hall).
  apply (Hall C).
Defined.

Lemma job_alerts_only_for_drops_witness :
  exists k p price,
    nth_error (products (db Sample.two_rows)) k = Some p
    /\ price_seen Sample.lib (http (Sample.online Sample.cheaper) k) (product_url p)
       = Some price
    /\ PrimFloat.ltb price (last_price p) = true
    /\ 43 = user_id p
    /\ drop_message Sample.lib "Gadget" 100 90 "https://www.amazon.in/dp/B02"
       = drop_message Sample.lib (product_name p) (last_price p) price (product_url p).
Proof.
  destruct (job_alerts_only_for_drops Sample.lib (Sample.online Sample.cheaper)
              Sample.two_rows) as (sent & Hsent & _ & Hall).
  apply (Hall 43
           (drop_message Sample.lib "Gadget" 100 90 "https://www.amazon.in/dp/B02")).
  vm_compute in Hsent. rewrite <- Hsent. right. left. reflexivity.
Defined.

Lemma job_commits_only_after_alert_witness :
  completes Sample.lib (Sample.online Sample.cheaper) Sample.two_rows
  /\ exists added,
       trace (state_after
         (check_all_prices Sample.lib (Sample.online Sample.cheaper))
         Sample.two_rows) = trace Sample.two_rows ++ added
       /\ List.length (notifications added) = List.length (updates added).
Proof.
  assert (C : completes Sample.lib (Sample.online Sample.cheaper) Sample.two_rows)
    by (vm_compute; reflexivity).
  split; [exact C|].
  destruct (job_commits_only_after_alert Sample.lib (Sample.online Sample.cheaper)
              Sample.two_rows) as (added & Ht & _ & Hok).
  exists added. split; [exact Ht|apply (Hok C)].
Defined.

Lemma job_never_raises_witness :
  sqlite_read (More.unreadable Sample.cheaper) = Raise More.locked
  /\ db (state_after
       (check_all_prices Sample.lib (More.unreadable Sample.cheaper))
       Sample.two_rows) = db Sample.two_rows.
Proof.
  split; [reflexivity|].
  apply (job_never_raises Sample.lib (More.unreadable Sample.cheaper)
           Sample.two_rows) with (e := More.locked).
  reflexivity.
Defined.

Lemma run_without_drop_changes_nothing_witness :
  sqlite_read (Sample.online Sample.unchanged) = Ok tt
  /\ db (state_after
       (check_all_prices Sample.lib (Sample.online Sample.unchanged))
       Sample.two_rows) = db Sample.two_rows.
Proof.
  split; [reflexivity|].
  apply (run_without_drop_changes_nothing Sample.lib
           (Sample.online Sample.unchanged) Sample.two_rows eq_refl).
  intros [|[|k]] p Hk; simpl in Hk; inversion Hk; subst;
    try (right; exists 100%float; repeat split; vm_compute; reflexivity).
  destruct k; discriminate.
Defined.

Lemma job_changes_price_and_time_together_witness :
  primary_key (db Sample.two_rows)
  /\ sqlite_sequence (db (state_after
       (check_all_prices Sample.lib (Sample.online Sample.cheaper))
       Sample.two_rows)) = sqlite_sequence (db Sample.two_rows).
Proof.
  assert (K : primary_key (db Sample.two_rows)) by distinct_ids.
  split; [exact K|].
  apply (job_changes_price_and_time_together Sample.lib
           (Sample.online Sample.cheaper) Sample.two_rows K).
Defined.

Lemma registrar_confirms_name_and_price_witness :
  reply (Sample.online Sample.cheaper) 0
    (added_message Sample.lib "Widget" 90) = Ok tt
  /\ contains (added_message Sample.lib "Widget" 90) "Widget".
Proof.
  split; [reflexivity|].
  apply (registrar_confirms_name_and_price Sample.lib (Sample.online Sample.cheaper)
           Sample.link Sample.one_row "Widget"%string 90%float);
    vm_compute; reflexivity.
Defined.

Lemma registrar_reports_storage_failure_witness :
  sqlite_write (Sample.read_only Sample.cheaper) 0 = Raise Sample.disk_full
  /\ replies (trace (state_after
       (handle_link Sample.lib (Sample.read_only Sample.cheaper) (with_message Sample.link))
       Sample.one_row)) = [insert_error_message]
  /\ db (state_after
       (handle_link Sample.lib (Sample.read_only Sample.cheaper) (with_message Sample.link))
       Sample.one_row) = db Sample.one_row.
Proof.
  split; [reflexivity|].
  unfold state_after.
  rewrite (registrar_reports_storage_failure Sample.lib
             (Sample.read_only Sample.cheaper) Sample.link Sample.one_row
             "Widget"%string 90%float Sample.disk_full)
    by (vm_compute; reflexivity).
  split; vm_compute; reflexivity.
Defined.

Lemma registrar_reply_failure_after_commit_witness :
  reply (More.replies_down Sample.cheaper) 0
    (added_message Sample.lib "Widget" 90) = Raise More.flood_wait
  /\ List.length (products (db (state_after
       (handle_link Sample.lib (More.replies_down Sample.cheaper) (with_message Sample.link))
       Sample.one_row))) = 2%nat
  /\ replies (trace (state_after
       (handle_link Sample.lib (More.replies_down Sample.cheaper) (with_message Sample.link))
       Sample.one_row))
     = [added_message Sample.lib "Widget" 90; insert_error_message].
Proof.
  split; [reflexivity|].
  unfold state_after.
  destruct (registrar_reply_failure_after_commit Sample.lib
              (More.replies_down Sample.cheaper) Sample.link Sample.one_row
              "Widget"%string 90%float More.flood_wait) as [Hrun _];
    try (vm_compute; reflexivity).
  rewrite Hrun. split; vm_compute; reflexivity.
Defined.

Lemma registrar_answers_once_witness :
  value_of (handle_link Sample.lib Sample.offline (with_message Sample.link)) Sample.one_row
  = Ok tt.
Proof.
  apply (registrar_answers_once Sample.lib Sample.offline
           (with_message Sample.link) Sample.one_row) with (m := Sample.link).
  - reflexivity.
  - intros i text. reflexivity.
Defined.

Lemma registered_row_is_selected_witness :
  sqlite_write (Sample.online Sample.cheaper) 0 = Ok tt
  /\ value_of (sql_select (Sample.online Sample.unchanged))
       (state_after
          (handle_link Sample.lib (Sample.online Sample.cheaper) (with_message Sample.link))
          Sample.one_row)
     = Ok (products (db Sample.one_row)
           ++ [new_row Sample.lib (Sample.online Sample.cheaper) Sample.link
                 (db Sample.one_row) "Widget" 90]).
Proof.
  split; [reflexivity|].
  apply (registered_row_is_selected Sample.lib (Sample.online Sample.cheaper)
           (Sample.online Sample.unchanged) Sample.link Sample.one_row
           "Widget"%string 90%float);
    vm_compute; reflexivity.
Defined.

Lemma registered_price_is_the_baseline_witness :
  price_seen Sample.lib (http (Sample.online Sample.cheaper) 1)
    (strip Sample.lib (message_text Sample.link)) = Some 90%float
  /\ value_of
       (check_one Sample.lib (Sample.online Sample.cheaper) 1
          (new_row Sample.lib (Sample.online Sample.cheaper) Sample.link
             (db Sample.one_row) "Widget" 90))
       Sample.one_row
     = Ok tt.
Proof.
  assert (S : price_seen Sample.lib (http (Sample.online Sample.cheaper) 1)
                (strip Sample.lib (message_text Sample.link)) = Some 90%float)
    by (vm_compute; reflexivity).
  split; [exact S|].
  apply (registered_price_is_the_baseline Sample.lib (Sample.online Sample.cheaper)
           Sample.link (db Sample.one_row) "Widget"%string 90%float
           (Sample.online Sample.cheaper) 1%nat Sample.one_row S).
  reflexivity.
Defined.

Lemma calls_keep_primary_key_witness :
  primary_key
    (db (run_calls Sample.lib More.session
           {| db := create_table_if_not_exists (Some (db Sample.one_row));
              trace := [] |})).
Proof.
  apply (calls_keep_primary_key Sample.lib More.session (Some (db Sample.one_row)) []).
  intros table H. inversion H; subst. distinct_ids.
Defined.

Lemma calls_never_drop_or_raise_a_row_witness :
  primary_key (db Sample.one_row)
  /\ exists p',
       nth_error (products (db (run_calls Sample.lib More.session Sample.one_row))) 0
       = Some p'
       /\ prod_id p' = prod_id Sample.widget
       /\ user_id p' = user_id Sample.widget
       /\ product_url p' = product_url Sample.widget
       /\ product_name p' = product_name Sample.widget
       /\ (last_price p' = last_price Sample.widget
           \/ PrimFloat.ltb (last_price p') (last_price Sample.widget) = true).
Proof.
  assert (K : primary_key (db Sample.one_row)) by distinct_ids.
  split; [exact K|].
  apply (calls_never_drop_or_raise_a_row Sample.lib More.session Sample.one_row K
           0%nat Sample.widget).
  reflexivity.
Defined.

Lemma null_price_stops_the_run_witness :
  is_null (last_price More.priceless) = true
  /\ requests (trace (state_after
       (check_all_prices Sample.lib (Sample.online Sample.cheaper))
       More.null_first))
     = [product_url More.priceless]
  /\ notifications (trace (state_after
       (check_all_prices Sample.lib (Sample.online Sample.cheaper))
       More.null_first))
     = []
  /\ db (state_after
       (check_all_prices Sample.lib (Sample.online Sample.cheaper))
       More.null_first)
     = db More.null_first.
Proof.
  split; [reflexivity|].
  rewrite (null_price_stops_the_run Sample.lib (Sample.online Sample.cheaper)
             More.null_first [] More.priceless [Sample.gadget]
             (emit (SqlSelect true) More.null_first) 90%float eq_refl).
  - vm_compute. repeat split; reflexivity.
  - split; reflexivity.
  - reflexivity.
  - vm_compute. reflexivity.
Defined.
